(** * evohome_cc: the discovery-and-refresh broker

    A shallow embedding of [__init__.py] of the evohome_cc integration:
    the scan-interval entry of [CONFIG_SCHEMA], the two classifiers
    [new_sensors] and [new_binary_sensors], [EvoBroker.update], the
    [device_state_attributes] properties of the entity base classes, the
    entities' subscription to the dispatcher, and [async_setup].

    The broker object is the state of a small state/exception/trace monad;
    what the code asks of [hass] (tasks created, signals sent) and of the
    logger is recorded, in program order, in the trace. *)

From stdpp Require Import base option list strings gmap.
From Stdlib Require Import ZArith Lia.

Open Scope string_scope.
Open Scope list_scope.

(** ** Python values that end up in attribute maps *)

Inductive PyVal :=
| PyNone
| PyStr (s : string).

Global Instance PyVal_eq_dec : EqDecision PyVal.
Proof. solve_decision. Defined.

(** A dict that is only ever printed ([schema], [params], [status], the
    host configuration): its items, as text. *)
Definition PyDict := list (string * string).

(** ** The gateway's objects (evohome_rf), as far as this file reads them *)

(** The controller a device is bound to; only its [id] is read. *)
Record Controller := { ctl_id : string }.

Global Instance Controller_eq_dec : EqDecision Controller.
Proof. solve_decision. Defined.

Record Zone := { zone_idx : string; name : string }.

Global Instance Zone_eq_dec : EqDecision Zone.
Proof. solve_decision. Defined.

(** A device object.  [attr_names] lists the names [a] for which
    [hasattr(d, a)] holds. *)
Record Device := {
  id : string;
  attr_names : list string;
  _ctl : option Controller;
  _is_present : bool;
  _domain_id : option string;
  zone : option Zone
}.

Global Instance Device_eq_dec : EqDecision Device.
Proof. solve_decision. Defined.

(** [client.evo]: the system the gateway has discovered. *)
Record Evo := {
  schema : PyDict;
  params : PyDict;
  status : PyDict;
  zones : list Zone;
  dhw : option Device;
  devices : list Device
}.

(** [evo] is [None] until the gateway has found a controller. *)
Record Client := { evo : option Evo }.

(** ** Python built-ins *)

Definition hasattr (d : Device) (a : string) : bool :=
  bool_decide (a ∈ attr_names d).

(** [any(l)] *)
Fixpoint any (l : list bool) : bool :=
  match l with
  | [] => false
  | x :: l' => if x then true else any l'
  end.

(** [x in l]: some member is equal to [x]. *)
Fixpoint py_in {A} `{EqDecision A} (x : A) (l : list A) : bool :=
  match l with
  | [] => false
  | y :: l' => if decide (x = y) then true else py_in x l'
  end.

(** Truth value of a list: non-empty. *)
Definition list_truthy {A} (l : list A) : bool :=
  match l with [] => false | _ :: _ => true end.

(** Truth value of an object reference that may be [None]. *)
Definition obj_truthy {A} (o : option A) : bool :=
  match o with None => false | Some _ => true end.

(** [o is None] *)
Definition is_none {A} (o : option A) : bool :=
  match o with None => true | Some _ => false end.

(** ** Entities and the broker *)

Record EvoEntity := {
  _evo_device : Device;
  _unique_id : option string;
  _name : option string
}.

Record EvoBroker := {
  client : Client;
  broker_params : PyDict;
  config : option PyDict;
  broker_status : option PyDict;
  binary_sensors : list Device;
  climates : list Zone;
  water_heater : option EvoEntity;
  sensors : list Device;
  hass_config : option PyDict
}.

(** ** What [update] asks of its environment *)

(** The coroutine [async_load_platform(hass, component, platform,
    discovered, hass_config)]. *)
Record Coroutine := AsyncLoadPlatform {
  component : string;
  platform : string;
  discovered : gmap string string;
  load_hass_config : option PyDict
}.

Inductive Event :=
| LogDebug (fmt : string) (arg : option PyDict)
| CreateTask (c : Coroutine)
| DispatcherSend (signal : string).

Inductive Exn :=
| AttributeError (obj attr : string).

Inductive Result (A : Type) :=
| Ok (a : A)
| Raised (e : Exn).
Arguments Ok {A} a.
Arguments Raised {A} e.

(** A computation on the broker: its result, the broker afterwards and
    the events it caused. *)
Definition M (A : Type) : Type := EvoBroker → Result A * EvoBroker * list Event.

Global Instance M_ret : MRet M := λ A a b, (Ok a, b, []).

Global Instance M_bind : MBind M := λ A B f m b,
  match m b with
  | (Ok a, b', t) =>
      match f a b' with
      | (r, b'', t') => (r, b'', t ++ t')
      end
  | (Raised e, b', t) => (Raised e, b', t)
  end.

Definition gets {A} (f : EvoBroker → A) : M A := λ b, (Ok (f b), b, []).
Definition emit (ev : Event) : M unit := λ b, (Ok tt, b, [ev]).
Definition raise {A} (e : Exn) : M A := λ b, (Raised e, b, []).

(** [if c: m] *)
Definition when (c : bool) (m : M unit) : M unit :=
  if c then m else mret tt.

Definition result_of {A} (x : Result A * EvoBroker * list Event) : Result A := x.1.1.
Definition broker_of {A} (x : Result A * EvoBroker * list Event) : EvoBroker := x.1.2.
Definition trace_of {A} (x : Result A * EvoBroker * list Event) : list Event := x.2.

Definition log_debug (fmt : string) (arg : option PyDict) : M unit :=
  emit (LogDebug fmt arg).

(** [self.hass.async_create_task(coro)]: the task is scheduled, not run. *)
Definition async_create_task (c : Coroutine) : M unit :=
  emit (CreateTask c).

(** [self.hass.helpers.dispatcher.async_dispatcher_send(signal)] *)
Definition async_dispatcher_send (signal : string) : M unit :=
  emit (DispatcherSend signal).

(** ** Reading a trace *)

(** A request to set up the platform of [c]. *)
Definition is_request_for (c : string) (ev : Event) : bool :=
  match ev with
  | CreateTask co => bool_decide (component co = c)
  | _ => false
  end.

Definition is_request (ev : Event) : bool :=
  match ev with
  | CreateTask _ => true
  | _ => false
  end.

Definition is_notification (ev : Event) : bool :=
  match ev with
  | DispatcherSend _ => true
  | _ => false
  end.

Definition requests_for (c : string) (t : list Event) : list Event :=
  List.filter (is_request_for c) t.

Definition requests (t : list Event) : list Event :=
  List.filter is_request t.

Definition notifications (t : list Event) : list Event :=
  List.filter is_notification t.

(** The discovery payload of a request is the empty dict. *)
Definition payload_empty (ev : Event) : Prop :=
  match ev with
  | CreateTask co => discovered co = ∅
  | _ => True
  end.

(** The devices a request names in its payload: every value of the dict. *)
Definition names_device (ev : Event) (d : Device) : Prop :=
  match ev with
  | CreateTask co => ∃ k, discovered co !! k = Some (id d)
  | _ => False
  end.

Section Broker.

(** The constants of [const.py] are parameters. *)
Variable DOMAIN : string.
Variable BINARY_SENSOR_ATTRS : list string.
Variable SENSOR_ATTRS : list string.

(** The filter of the two list comprehensions:
    [d not in tracked and any([hasattr(d, a) for a in attrs])]. *)
Definition is_new (tracked : list Device) (attrs : list string) (d : Device) : bool :=
  negb (py_in d tracked) && any (map (hasattr d) attrs).

Definition new_binary_sensors : M (list Device) :=
  evohome ← gets (λ broker, evo (client broker));
  match evohome with
  | None => raise (AttributeError "NoneType" "devices")
  | Some evohome =>
      tracked ← gets binary_sensors;
      mret (List.filter (is_new tracked BINARY_SENSOR_ATTRS) (devices evohome))
  end.

Definition new_sensors : M (list Device) :=
  evohome ← gets (λ broker, evo (client broker));
  match evohome with
  | None => raise (AttributeError "NoneType" "devices")
  | Some evohome =>
      tracked ← gets sensors;
      mret (List.filter (is_new tracked SENSOR_ATTRS) (devices evohome))
  end.

(** [async_load_platform(self.hass, c, DOMAIN, {}, self.hass_config)],
    handed to [async_create_task]. *)
Definition load_platform (c : string) : M unit :=
  hc ← gets hass_config;
  async_create_task (AsyncLoadPlatform c DOMAIN ∅ hc).

Definition update : M unit :=
  evohome ← gets (λ self, evo (client self));
  log_debug "Schema = %s" (schema <$> evohome);;
  match evohome with
  | None => mret tt
  | Some evohome =>
      tracked ← gets climates;
      when (list_truthy (List.filter (λ z, negb (py_in z tracked)) (zones evohome)))
           (load_platform "climate");;
      heater ← gets water_heater;
      when (obj_truthy (dhw evohome) && is_none heater)
           (load_platform "water_heater");;
      new ← new_sensors;
      when (list_truthy new) (load_platform "sensor");;
      new ← new_binary_sensors;
      when (list_truthy new) (load_platform "binary_sensor");;
      log_debug "Params = %s" (Some (params evohome));;
      log_debug "Status = %s" (Some (status evohome));;
      async_dispatcher_send DOMAIN
  end.

End Broker.

(** ** Successive timer ticks *)

(** Between two ticks the gateway may replace [client.evo]. *)
Definition gateway_sets (e : option Evo) : M unit := λ b,
  (Ok tt,
   {| client := {| evo := e |};
      broker_params := broker_params b;
      config := config b;
      broker_status := broker_status b;
      binary_sensors := binary_sensors b;
      climates := climates b;
      water_heater := water_heater b;
      sensors := sensors b;
      hass_config := hass_config b |},
   []).

(** One call of [update] per tick, each on the inventory of that tick. *)
Fixpoint poll_cycles (DOMAIN : string) (BSA SA : list string)
    (inventories : list (option Evo)) : M unit :=
  match inventories with
  | [] => mret tt
  | e :: rest =>
      gateway_sets e;;
      update DOMAIN BSA SA;;
      poll_cycles DOMAIN BSA SA rest
  end.

(** ** The classifier, in the words of the specification *)

(** [d] exposes at least one of the attributes named in [attrs]. *)
Definition qualifies (attrs : list string) (d : Device) : Prop :=
  Exists (λ a, a ∈ attr_names d) attrs.

Global Instance qualifies_dec attrs d : Decision (qualifies attrs d).
Proof. unfold qualifies. apply _. Defined.

(** The inventory devices that are absent from the tracker list and
    qualify, in inventory order. *)
Definition spec_new_devices (attrs : list string) (tracked inventory : list Device)
    : list Device :=
  filter (λ d, (d ∉ tracked) ∧ qualifies attrs d) inventory.

(** Every device, zone and hot-water object the categories ask for is
    already in the broker's trackers. *)
Definition all_tracked (BSA SA : list string) (e : Evo) (b : EvoBroker) : Prop :=
  (∀ z, z ∈ zones e → z ∈ climates b)
  ∧ (dhw e = None ∨ water_heater b ≠ None)
  ∧ (∀ d, d ∈ devices e → qualifies SA d → d ∈ sensors b)
  ∧ (∀ d, d ∈ devices e → qualifies BSA d → d ∈ binary_sensors b).

(** ** Entity base classes *)

(** [x.f if x else None], as a value of an attribute map. *)
Definition attr_or_none {A} (f : A → string) (x : option A) : PyVal :=
  match x with
  | Some a => PyStr (f a)
  | None => PyNone
  end.

Module EvoEntity.

Definition should_poll (self : EvoEntity) : bool := false.

Definition unique_id (self : EvoEntity) : option string := _unique_id self.

Definition name (self : EvoEntity) : option string := _name self.

Definition device_state_attributes (self : EvoEntity) : gmap string PyVal :=
  {[ "controller" := attr_or_none ctl_id (_ctl (_evo_device self)) ]}.

End EvoEntity.

Module EvoDeviceBase.

Definition available (self : EvoEntity) : bool := _is_present (_evo_device self).

(** [{**super().device_state_attributes, "domain_id": ..., "zone_name": ...}] *)
Definition device_state_attributes (self : EvoEntity) : gmap string PyVal :=
  <[ "zone_name" := attr_or_none name (zone (_evo_device self)) ]>
    (<[ "domain_id" := attr_or_none (λ s : string, s) (_domain_id (_evo_device self)) ]>
       (EvoEntity.device_state_attributes self)).

End EvoDeviceBase.

(** [EvoZoneBase] does not override the property. *)
Module EvoZoneBase.

Definition device_state_attributes (self : EvoEntity) : gmap string PyVal :=
  EvoEntity.device_state_attributes self.

End EvoZoneBase.

(** ** The scan-interval entry of [CONFIG_SCHEMA] *)

(** A [timedelta], as its number of microseconds. *)
Definition timedelta := Z.

Definition timedelta_seconds (s : Z) : timedelta := (s * 1000000)%Z.

Definition SCAN_INTERVAL_DEFAULT : timedelta := timedelta_seconds 300.
Definition SCAN_INTERVAL_MINIMUM : timedelta := timedelta_seconds 10.

(** The outcome of a validator. *)
Inductive Checked (A : Type) :=
| Valid (a : A)
| Invalid (msg : string).
Arguments Valid {A} a.
Arguments Invalid {A} msg.

(** What a configuration file may give for the key: a [timedelta], or
    something else ([Other]) that [cv.time_period] may or may not read
    as one. *)
Inductive ConfValue (Other : Type) :=
| CvTimedelta (td : timedelta)
| CvOther (x : Other).
Arguments CvTimedelta {Other} td.
Arguments CvOther {Other} x.

(** [vol.Range(min=m)]: the bound is included. *)
Definition Range_min (m : timedelta) (v : timedelta) : Checked timedelta :=
  if negb (m <=? v)%Z then Invalid "value must be at least min" else Valid v.

(** [vol.All(f, g)]: each validator is fed the output of the one before. *)
Definition All {A B C} (f : A → Checked B) (g : B → Checked C) (v : A) : Checked C :=
  match f v with
  | Valid w => g w
  | Invalid msg => Invalid msg
  end.

(** [vol.Optional(key, default=d): validator]: a missing key gets the
    default, which is validated like a given value. *)
Definition Optional_default {A B} (d : A) (validator : A → Checked B)
    (given : option A) : Checked B :=
  match given with
  | Some v => validator v
  | None => validator d
  end.

Section Config.

Variable Other : Type.
(** How Home Assistant reads a value that is not a [timedelta] (seconds,
    a clock string, a dict of units); [None] when it is refused. *)
Variable read_other : Other → option timedelta.

(** [cv.time_period]: a [timedelta] is kept as it is. *)
Definition time_period (v : ConfValue Other) : Checked timedelta :=
  match v with
  | CvTimedelta td => Valid td
  | CvOther x =>
      match read_other x with
      | Some td => Valid td
      | None => Invalid "offset should be format HH:MM, HH:MM:SS or seconds"
      end
  end.

Definition scan_interval_schema : option (ConfValue Other) → Checked timedelta :=
  Optional_default (CvTimedelta SCAN_INTERVAL_DEFAULT)
    (All time_period (Range_min SCAN_INTERVAL_MINIMUM)).

End Config.

(** ** A concrete system *)

Module Scenario.

(** Modelled from the spec: the constants of [const.py], with attribute
    names as in the specification's scenario. *)
Definition DOMAIN : string := "evohome_cc".
Definition SENSOR_ATTRS : list string := ["heat_demand"; "temperature"].
Definition BINARY_SENSOR_ATTRS : list string := ["battery_low"; "window_open"].

Definition ctl : Controller := {| ctl_id := "01:145038" |}.

Definition trv : Device :=
  {| id := "04:123456"; attr_names := ["temperature"; "battery_low"];
     _ctl := Some ctl; _is_present := true;
     _domain_id := Some "01"; zone := Some {| zone_idx := "01"; name := "Lounge" |} |}.

Definition stat : Device :=
  {| id := "34:064023"; attr_names := ["temperature"];
     _ctl := None; _is_present := true; _domain_id := None; zone := None |}.

Definition bdr : Device :=
  {| id := "13:237335"; attr_names := ["relay_demand"];
     _ctl := Some ctl; _is_present := true; _domain_id := Some "FC"; zone := None |}.

Definition cylinder : Device :=
  {| id := "07:045960"; attr_names := ["temperature"];
     _ctl := Some ctl; _is_present := true; _domain_id := Some "FA"; zone := None |}.

Definition lounge : Zone := {| zone_idx := "01"; name := "Lounge" |}.

Definition system : Evo :=
  {| schema := [("controller", "01:145038")]; params := []; status := [];
     zones := [lounge]; dhw := Some cylinder;
     devices := [trv; bdr; stat; cylinder] |}.

(** The broker as [EvoBroker.__init__] leaves it, once the gateway has
    found [system]. *)
Definition fresh : EvoBroker :=
  {| client := {| evo := Some system |};
     broker_params := []; config := None; broker_status := None;
     binary_sensors := []; climates := []; water_heater := None; sensors := [];
     hass_config := Some [] |}.

(** The same broker before the gateway has found anything. *)
Definition unsynced : EvoBroker :=
  {| client := {| evo := None |};
     broker_params := []; config := None; broker_status := None;
     binary_sensors := []; climates := []; water_heater := None; sensors := [];
     hass_config := Some [] |}.

(** The broker once every platform has recorded what it set up. *)
Definition settled : EvoBroker :=
  {| client := {| evo := Some system |};
     broker_params := []; config := None; broker_status := None;
     binary_sensors := [trv]; climates := [lounge];
     water_heater := Some {| _evo_device := cylinder; _unique_id := Some "07:045960";
                             _name := Some "DHW" |};
     sensors := [trv; stat; cylinder];
     hass_config := Some [] |}.

End Scenario.

(** ** The water-heater platform *)


(** ** Construction *)

(** [EvoBroker.__init__(hass, client, store, params)]: nothing is
    tracked, no snapshot is cached and [hass_config] is still [None]. *)
Definition EvoBroker__init__ (client : Client) (params : PyDict) : EvoBroker :=
  {| client := client;
     broker_params := params;
     config := None;
     broker_status := None;
     binary_sensors := [];
     climates := [];
     water_heater := None;
     sensors := [];
     hass_config := None |}.

(** [broker.hass_config = hass_config] *)
Definition set_hass_config (broker : EvoBroker) (hass_config : PyDict) : EvoBroker :=
  {| client := client broker;
     broker_params := broker_params broker;
     config := config broker;
     broker_status := broker_status broker;
     binary_sensors := binary_sensors broker;
     climates := climates broker;
     water_heater := water_heater broker;
     sensors := sensors broker;
     hass_config := Some hass_config |}.


(** ** Entities and the dispatcher *)







(** ** Setting the integration up *)

(** The values of a configuration dict and of the keyword arguments made
    from it; [CfgLoop] is the host's event loop, [hass.loop]. *)
Inductive CfgVal :=
| CfgNone
| CfgStr (s : string)
| CfgInt (n : Z)
| CfgPeriod (td : timedelta)
| CfgList (l : list string)
| CfgDict (d : PyDict)
| CfgBlocklist (d : gmap string PyDict)
| CfgLoop.

(** [homeassistant.const.CONF_SCAN_INTERVAL] *)
Definition CONF_SCAN_INTERVAL : string := "scan_interval".

(** The keys that iterating over a value yields; [None] when the value is
    not iterable. *)
Definition py_iter (v : CfgVal) : option (list string) :=
  match v with
  | CfgList l => Some l
  | CfgStr s => Some ((λ c, String c EmptyString) <$> Stdlib.Strings.String.list_ascii_of_string s)
  | CfgDict d => Some (d.*1)
  | CfgBlocklist d => Some ((map_to_list d).*1)
  | CfgNone | CfgInt _ | CfgPeriod _ | CfgLoop => None
  end.

(** [dict.fromkeys(keys, v)] *)
Definition dict_fromkeys {V} (keys : list string) (v : V) : gmap string V :=
  foldl (λ m k, <[k := v]> m) ∅ keys.

(** How the constructor [evohome_rf.Gateway(...)] ends. *)
Inductive GatewayOutcome :=
| GatewayBuilt (client : Client)
| SerialException (msg : string)
| OtherException (msg : string).

Inductive SetupExn :=
| KeyError (key : string)
| TypeError (msg : string)
| Uncaught (msg : string).

Inductive SetupEvent :=
| SetupLogWarning (fmt : string)
| SetupLogError (fmt : string)
| SetupLogDebug (fmt : string) (store : PyDict)
| SetupLogException (fmt : string) (msg : string)
| StoreAsyncLoad
| GatewayCall (serial_port : CfgVal) (kwargs : gmap string CfgVal)
| HassDataBroker (broker : EvoBroker)
| LoopCreateTask (c : Client)
| AsyncTrackTimeInterval (period : CfgVal).

Inductive Outcome (A : Type) :=
| Returned (a : A)
| Failed (e : SetupExn).
Arguments Returned {A} a.
Arguments Failed {A} e.

(** A computation of [async_setup]: how it ends and what it did. *)
Definition Setup (A : Type) : Type := Outcome A * list SetupEvent.

Global Instance Setup_ret : MRet Setup := λ A a, (Returned a, []).

Global Instance Setup_bind : MBind Setup := λ A B f m,
  match m with
  | (Returned a, t) =>
      match f a with
      | (r, t') => (r, t ++ t')
      end
  | (Failed e, t) => (Failed e, t)
  end.

Definition tell (ev : SetupEvent) : Setup unit := (Returned tt, [ev]).
Definition throw {A} (e : SetupExn) : Setup A := (Failed e, []).

(** [d[key]] *)
Definition getitem {V} (d : gmap string V) (key : string) : Setup V :=
  match d !! key with
  | Some v => mret v
  | None => throw (KeyError key)
  end.

Section Setup.

Variable DOMAIN : string.
(** [__version__] of this integration and of [evohome_rf]. *)
Variable version : string.
Variable evohome_rf_version : string.
(** The constructor of the gateway, which opens the serial port. *)
Variable Gateway : CfgVal → gmap string CfgVal → GatewayOutcome.
(** The items of a configuration dict as text, as the broker keeps them. *)
Variable render_domain : gmap string CfgVal → PyDict.
Variable render : gmap string (gmap string CfgVal) → PyDict.

(** [dict(app_storage if app_storage else {})] *)
Definition load_system_config (app_storage : option PyDict) : Setup PyDict :=
  tell StoreAsyncLoad;;
  mret (match app_storage with
        | Some (item :: items) => item :: items
        | _ => []
        end).

Definition async_setup (app_storage : option PyDict)
    (hass_config : gmap string (gmap string CfgVal)) : Setup bool :=
  (if decide (version = evohome_rf_version)
   then tell (SetupLogWarning "versions match (this is good)")
   else tell (SetupLogError "versions don't match (this is bad)"));;
  evohome_store ← load_system_config app_storage;
  domain_config ← getitem hass_config DOMAIN;
  tell (SetupLogDebug "Store = %s, Config =  %s" evohome_store);;
  let kwargs := domain_config in
  serial_port ← getitem kwargs "serial_port";
  let kwargs := delete "serial_port" kwargs in
  let ignore_list := default (CfgList []) (kwargs !! "ignore_list") in
  let kwargs := delete "ignore_list" kwargs in
  match py_iter ignore_list with
  | None => throw (TypeError "object is not iterable")
  | Some keys =>
      let kwargs := <["blocklist" := CfgBlocklist (dict_fromkeys keys [])]> kwargs in
      (* [Gateway(serial_port, loop=hass.loop, **kwargs)]: a key "loop"
         in [kwargs] is a second value for the same keyword *)
      match kwargs !! "loop" with
      | Some _ => throw (TypeError "got multiple values for keyword argument 'loop'")
      | None =>
          let keywords := <["loop" := CfgLoop]> kwargs in
          tell (GatewayCall serial_port keywords);;
          match Gateway serial_port keywords with
          | SerialException msg =>
              tell (SetupLogException "Unable to open serial port. Message is: %s" msg);;
              mret false
          | OtherException msg => throw (Uncaught msg)
          | GatewayBuilt gateway =>
              (* [hass.data] holds the very object that is given its
                 [hass_config] on the next line *)
              let broker := EvoBroker__init__ gateway (render_domain domain_config) in
              let broker := set_hass_config broker (render hass_config) in
              tell (HassDataBroker broker);;
              tell (LoopCreateTask gateway);;
              domain_config ← getitem hass_config DOMAIN;
              period ← getitem domain_config CONF_SCAN_INTERVAL;
              tell (AsyncTrackTimeInterval period);;
              mret true
          end
      end
  end.

End Setup.

(** What [async_setup] leaves behind in the host: the broker, the
    gateway's task, the timer. *)
Definition sets_up (ev : SetupEvent) : bool :=
  match ev with
  | HassDataBroker _ | LoopCreateTask _ | AsyncTrackTimeInterval _ => true
  | _ => false
  end.

(** ** A concrete configuration *)

Module SetupScenario.

Definition domain_config : gmap string CfgVal :=
  {[ "serial_port" := CfgStr "/dev/ttyUSB0";
     "packet_log" := CfgStr "packets.log";
     "scan_interval" := CfgPeriod (timedelta_seconds 300);
     "ignore_list" := CfgList ["12:345678"; "13:111111"; "12:345678"];
     "max_zones" := CfgInt 12 ]}.

Definition hass_config : gmap string (gmap string CfgVal) :=
  {[ "evohome_cc" := domain_config ]}.

(** A configuration that was not validated: no scan interval. *)
Definition no_interval : gmap string (gmap string CfgVal) :=
  {[ "evohome_cc" := delete "scan_interval" domain_config ]}.

(** A configuration without the serial port. *)
Definition no_port : gmap string (gmap string CfgVal) :=
  {[ "evohome_cc" := delete "serial_port" domain_config ]}.

(** Only [/dev/ttyUSB0] can be opened. *)
Definition Gateway (serial_port : CfgVal) (kwargs : gmap string CfgVal) : GatewayOutcome :=
  match serial_port with
  | CfgStr "/dev/ttyUSB0" => GatewayBuilt {| evo := None |}
  | _ => SerialException "could not open port"
  end.

(** A gateway whose port cannot be opened. *)
Definition unplugged (serial_port : CfgVal) (kwargs : gmap string CfgVal) : GatewayOutcome :=
  SerialException "could not open port".

(** A configuration with a key of its own named "loop". *)
Definition with_loop : gmap string (gmap string CfgVal) :=
  {[ "evohome_cc" := <["loop" := CfgStr "mine"]> domain_config ]}.

(** The keyword arguments the gateway gets from [domain_config]. *)
Definition kwargs : gmap string CfgVal :=
  {[ "loop" := CfgLoop;
     "packet_log" := CfgStr "packets.log";
     "scan_interval" := CfgPeriod (timedelta_seconds 300);
     "max_zones" := CfgInt 12;
     "blocklist" := CfgBlocklist {[ "12:345678" := []; "13:111111" := [] ]} ]}.

Definition render_domain (d : gmap string CfgVal) : PyDict :=
  (λ kv, (kv.1, "...")) <$> map_to_list d.

Definition render (c : gmap string (gmap string CfgVal)) : PyDict :=
  (λ kv, (kv.1, "{...}")) <$> map_to_list c.

End SetupScenario.

(** * Properties *)

(** ** The built-ins against membership and [Exists] *)

Lemma py_in_true {A} `{EqDecision A} (x : A) (l : list A) :
  py_in x l = true ↔ x ∈ l.
Proof.
  induction l as [|y l IH]; simpl.
  - split; [discriminate | intros Hin; inversion Hin].
  - destruct (decide (x = y)) as [->|Hne].
    + split; [intros _; left | reflexivity].
    + rewrite IH. split; [intros Hin; right; exact Hin|].
      intros Hin. inversion Hin; subst; [congruence | assumption].
Qed.

Lemma py_in_false {A} `{EqDecision A} (x : A) (l : list A) :
  py_in x l = false ↔ x ∉ l.
Proof.
  rewrite <- py_in_true. destruct (py_in x l); split; congruence.
Qed.

Lemma any_hasattr_true (d : Device) (attrs : list string) :
  any (map (hasattr d) attrs) = true ↔ qualifies attrs d.
Proof.
  unfold qualifies. induction attrs as [|a attrs IH]; simpl.
  - split; [discriminate | intros HE; inversion HE].
  - unfold hasattr at 1. destruct (bool_decide_reflect (a ∈ attr_names d)) as [Hin|Hout].
    + split; [intros _; left; exact Hin | reflexivity].
    + rewrite IH. split; [intros HE; right; exact HE|].
      intros HE. inversion HE; subst; [contradiction | assumption].
Qed.

Lemma is_new_true (tracked : list Device) (attrs : list string) (d : Device) :
  is_new tracked attrs d = true ↔ (d ∉ tracked) ∧ qualifies attrs d.
Proof.
  unfold is_new. rewrite andb_true_iff, negb_true_iff.
  rewrite py_in_false, any_hasattr_true. reflexivity.
Qed.

(** A comprehension with a boolean test is the filter by the property the
    test decides. *)
Lemma comprehension_filter {A} (f : A → bool) (P : A → Prop)
    `{∀ x, Decision (P x)} (l : list A) :
  (∀ x, f x = true ↔ P x) → List.filter f l = filter P l.
Proof.
  intros Hf. induction l as [|x l IH]; simpl; [reflexivity|].
  rewrite filter_cons. destruct (decide (P x)) as [HP|HP].
  - apply Hf in HP. rewrite HP, IH. reflexivity.
  - destruct (f x) eqn:Hfx; [apply Hf in Hfx; contradiction | exact IH].
Qed.

Lemma list_truthy_false {A} (l : list A) : list_truthy l = false ↔ l = [].
Proof. destruct l; simpl; split; congruence. Qed.

Lemma comprehension_truthy {A} (f : A → bool) (l : list A) (x : A) :
  x ∈ l → f x = true → list_truthy (List.filter f l) = true.
Proof.
  induction l as [|y l IH]; intros Hin Hf; [inversion Hin|].
  simpl. destruct (f y) eqn:Hfy; [reflexivity|].
  inversion Hin; subst; [congruence | apply IH; assumption].
Qed.

Lemma comprehension_empty {A} (f : A → bool) (l : list A) :
  (∀ x, x ∈ l → f x = false) → List.filter f l = [].
Proof.
  induction l as [|y l IH]; intros Hf; [reflexivity|].
  simpl. rewrite (Hf y) by left. apply IH. intros x Hx. apply Hf. right. exact Hx.
Qed.

Lemma requests_for_app (c : string) (t1 t2 : list Event) :
  requests_for c (t1 ++ t2) = requests_for c t1 ++ requests_for c t2.
Proof. unfold requests_for. apply List.filter_app. Qed.

Section BrokerFacts.

Variable DOMAIN : string.
Variable BINARY_SENSOR_ATTRS : list string.
Variable SENSOR_ATTRS : list string.

Abbreviation request c b := (CreateTask (AsyncLoadPlatform c DOMAIN ∅ (hass_config b))).

(** ** What the classifiers compute *)

Lemma new_sensors_run (b : EvoBroker) (e : Evo) :
  evo (client b) = Some e →
  new_sensors SENSOR_ATTRS b
  = (Ok (List.filter (is_new (sensors b) SENSOR_ATTRS) (devices e)), b, []).
Proof.
  intros He. unfold new_sensors, mbind, M_bind, gets, mret, M_ret.
  rewrite He. reflexivity.
Qed.

Lemma new_binary_sensors_run (b : EvoBroker) (e : Evo) :
  evo (client b) = Some e →
  new_binary_sensors BINARY_SENSOR_ATTRS b
  = (Ok (List.filter (is_new (binary_sensors b) BINARY_SENSOR_ATTRS) (devices e)), b, []).
Proof.
  intros He. unfold new_binary_sensors, mbind, M_bind, gets, mret, M_ret.
  rewrite He. reflexivity.
Qed.

(** ** One run of [update], event by event *)

Lemma update_run_none (b : EvoBroker) :
  evo (client b) = None →
  update DOMAIN BINARY_SENSOR_ATTRS SENSOR_ATTRS b
  = (Ok tt, b, [LogDebug "Schema = %s" None]).
Proof.
  intros He. unfold update, mbind, M_bind, gets, log_debug, emit, mret, M_ret.
  rewrite He. reflexivity.
Qed.

Lemma update_run_some (b : EvoBroker) (e : Evo) :
  evo (client b) = Some e →
  update DOMAIN BINARY_SENSOR_ATTRS SENSOR_ATTRS b
  = (Ok tt, b,
     LogDebug "Schema = %s" (Some (schema e))
     :: (if list_truthy (List.filter (λ z, negb (py_in z (climates b))) (zones e))
         then [request "climate" b] else [])
     ++ (if obj_truthy (dhw e) && is_none (water_heater b)
         then [request "water_heater" b] else [])
     ++ (if list_truthy (List.filter (is_new (sensors b) SENSOR_ATTRS) (devices e))
         then [request "sensor" b] else [])
     ++ (if list_truthy (List.filter (is_new (binary_sensors b) BINARY_SENSOR_ATTRS) (devices e))
         then [request "binary_sensor" b] else [])
     ++ [LogDebug "Params = %s" (Some (params e));
         LogDebug "Status = %s" (Some (status e));
         DispatcherSend DOMAIN]).
Proof.
  intros He.
  unfold update, new_sensors, new_binary_sensors, load_platform, when,
    async_create_task, async_dispatcher_send, log_debug, emit, gets,
    mbind, M_bind, mret, M_ret.
  rewrite He. simpl.
  destruct (list_truthy (List.filter (λ z, negb (py_in z (climates b))) (zones e)));
    simpl;
    destruct (obj_truthy (dhw e) && is_none (water_heater b));
    simpl; rewrite He; simpl;
    destruct (list_truthy (List.filter (is_new (sensors b) SENSOR_ATTRS) (devices e)));
    simpl; rewrite He; simpl;
    destruct (list_truthy
                (List.filter (is_new (binary_sensors b) BINARY_SENSOR_ATTRS) (devices e)));
    reflexivity.
Qed.

Abbreviation update := (update DOMAIN BINARY_SENSOR_ATTRS SENSOR_ATTRS).

(** A run of [update] hands the broker back as it got it. *)
Lemma update_keeps_broker (b : EvoBroker) : broker_of (update b) = b.
Proof.
  destruct (evo (client b)) as [e|] eqn:He.
  - rewrite (update_run_some b e He). reflexivity.
  - rewrite (update_run_none b He). reflexivity.
Qed.

(** ** The classifiers *)

(** C5: with an inventory at hand, [new_sensors] returns the devices of
    the inventory that are not in [broker.sensors] and expose one of
    [SENSOR_ATTRS], as a subsequence of the inventory;
    [new_binary_sensors] does the same with [broker.binary_sensors] and
    [BINARY_SENSOR_ATTRS]. *)
Theorem new_devices_subsequence (b : EvoBroker) (e : Evo) :
  evo (client b) = Some e →
  let news := spec_new_devices SENSOR_ATTRS (sensors b) (devices e) in
  let newb := spec_new_devices BINARY_SENSOR_ATTRS (binary_sensors b) (devices e) in
  result_of (new_sensors SENSOR_ATTRS b) = Ok news
  ∧ result_of (new_binary_sensors BINARY_SENSOR_ATTRS b) = Ok newb
  ∧ news `sublist_of` devices e
  ∧ newb `sublist_of` devices e
  ∧ (∀ d, d ∈ news ↔
       d ∈ devices e ∧ (d ∉ sensors b)
       ∧ ∃ a, a ∈ SENSOR_ATTRS ∧ hasattr d a = true)
  ∧ (∀ d, d ∈ newb ↔
       d ∈ devices e ∧ (d ∉ binary_sensors b)
       ∧ ∃ a, a ∈ BINARY_SENSOR_ATTRS ∧ hasattr d a = true).
Proof.
  intros He news newb. subst news newb. unfold spec_new_devices.
  rewrite (new_sensors_run b e He), (new_binary_sensors_run b e He).
  unfold result_of; simpl.
  assert (Hmem : ∀ (attrs : list string) (tracked : list Device) (d : Device),
             d ∈ filter (λ d, (d ∉ tracked) ∧ qualifies attrs d) (devices e) ↔
             d ∈ devices e ∧ (d ∉ tracked) ∧ ∃ a, a ∈ attrs ∧ hasattr d a = true).
  { intros attrs tracked d. rewrite list_elem_of_filter.
    unfold qualifies, hasattr. rewrite Exists_exists.
    setoid_rewrite bool_decide_eq_true. tauto. }
  split; [|split; [|split; [|split; [|split]]]].
  - f_equal. apply comprehension_filter. intros d. apply is_new_true.
  - f_equal. apply comprehension_filter. intros d. apply is_new_true.
  - apply sublist_filter.
  - apply sublist_filter.
  - intros d. apply Hmem.
  - intros d. apply Hmem.
Qed.

(** C6: the classifiers are queries.  Whatever the broker, a call hands
    it back unchanged (its four tracker fields with it) and causes no
    event; and the result depends on the inventory and on the tracker
    list only, so a second call returns what the first did. *)
Theorem new_devices_pure (b : EvoBroker) :
  (broker_of (new_sensors SENSOR_ATTRS b) = b
   ∧ trace_of (new_sensors SENSOR_ATTRS b) = []
   ∧ broker_of (new_binary_sensors BINARY_SENSOR_ATTRS b) = b
   ∧ trace_of (new_binary_sensors BINARY_SENSOR_ATTRS b) = [])
  ∧ (result_of (new_sensors SENSOR_ATTRS (broker_of (new_sensors SENSOR_ATTRS b)))
     = result_of (new_sensors SENSOR_ATTRS b)
     ∧ result_of (new_binary_sensors BINARY_SENSOR_ATTRS
                    (broker_of (new_binary_sensors BINARY_SENSOR_ATTRS b)))
       = result_of (new_binary_sensors BINARY_SENSOR_ATTRS b))
  ∧ (∀ b', evo (client b') = evo (client b) → sensors b' = sensors b →
       result_of (new_sensors SENSOR_ATTRS b') = result_of (new_sensors SENSOR_ATTRS b))
  ∧ (∀ b', evo (client b') = evo (client b) → binary_sensors b' = binary_sensors b →
       result_of (new_binary_sensors BINARY_SENSOR_ATTRS b')
       = result_of (new_binary_sensors BINARY_SENSOR_ATTRS b)).
Proof.
  assert (Hs : ∀ x, broker_of (new_sensors SENSOR_ATTRS x) = x
                    ∧ trace_of (new_sensors SENSOR_ATTRS x) = []).
  { intros x. unfold new_sensors, mbind, M_bind, gets, raise, mret, M_ret.
    destruct (evo (client x)); split; reflexivity. }
  assert (Hb : ∀ x, broker_of (new_binary_sensors BINARY_SENSOR_ATTRS x) = x
                    ∧ trace_of (new_binary_sensors BINARY_SENSOR_ATTRS x) = []).
  { intros x. unfold new_binary_sensors, mbind, M_bind, gets, raise, mret, M_ret.
    destruct (evo (client x)); split; reflexivity. }
  split; [|split; [|split]].
  - destruct (Hs b), (Hb b). tauto.
  - rewrite (proj1 (Hs b)), (proj1 (Hb b)). split; reflexivity.
  - intros b' He Ht.
    unfold new_sensors, mbind, M_bind, gets, raise, mret, M_ret.
    rewrite He. destruct (evo (client b)); simpl; [rewrite Ht|]; reflexivity.
  - intros b' He Ht.
    unfold new_binary_sensors, mbind, M_bind, gets, raise, mret, M_ret.
    rewrite He. destruct (evo (client b)); simpl; [rewrite Ht|]; reflexivity.
Qed.

(** ** The requests of one run *)

Ltac run_update b e He :=
  rewrite (update_run_some b e He); unfold trace_of; simpl;
  destruct (list_truthy (List.filter (λ z, negb (py_in z (climates b))) (zones e)));
  destruct (obj_truthy (dhw e) && is_none (water_heater b));
  destruct (list_truthy (List.filter (is_new (sensors b) SENSOR_ATTRS) (devices e)));
  destruct (list_truthy
              (List.filter (is_new (binary_sensors b) BINARY_SENSOR_ATTRS) (devices e)));
  reflexivity.

Lemma climate_requests (b : EvoBroker) (e : Evo) :
  evo (client b) = Some e →
  requests_for "climate" (trace_of (update b))
  = if list_truthy (List.filter (λ z, negb (py_in z (climates b))) (zones e))
    then [request "climate" b] else [].
Proof. intros He. run_update b e He. Qed.

Lemma water_heater_requests (b : EvoBroker) (e : Evo) :
  evo (client b) = Some e →
  requests_for "water_heater" (trace_of (update b))
  = if obj_truthy (dhw e) && is_none (water_heater b)
    then [request "water_heater" b] else [].
Proof. intros He. run_update b e He. Qed.

Lemma sensor_requests (b : EvoBroker) (e : Evo) :
  evo (client b) = Some e →
  requests_for "sensor" (trace_of (update b))
  = if list_truthy (List.filter (is_new (sensors b) SENSOR_ATTRS) (devices e))
    then [request "sensor" b] else [].
Proof. intros He. run_update b e He. Qed.

Lemma binary_sensor_requests (b : EvoBroker) (e : Evo) :
  evo (client b) = Some e →
  requests_for "binary_sensor" (trace_of (update b))
  = if list_truthy
         (List.filter (is_new (binary_sensors b) BINARY_SENSOR_ATTRS) (devices e))
    then [request "binary_sensor" b] else [].
Proof. intros He. run_update b e He. Qed.

Lemma all_requests (b : EvoBroker) (e : Evo) :
  evo (client b) = Some e →
  requests (trace_of (update b))
  = requests_for "climate" (trace_of (update b))
    ++ requests_for "water_heater" (trace_of (update b))
    ++ requests_for "sensor" (trace_of (update b))
    ++ requests_for "binary_sensor" (trace_of (update b)).
Proof. intros He. run_update b e He. Qed.

Lemma notifications_of_update (b : EvoBroker) (e : Evo) :
  evo (client b) = Some e →
  notifications (trace_of (update b)) = [DispatcherSend DOMAIN].
Proof. intros He. run_update b e He. Qed.

(** ** The poll cycle *)

(** C1, as the code has it: a device of the inventory that qualifies
    for a category and is not in that category's tracker list makes
    [update] issue exactly one request for the category, with the empty
    payload; [update] itself leaves the tracker list as it was, so the
    device is still absent from it when [update] returns. *)
Theorem update_requests_category (b : EvoBroker) (e : Evo) (d : Device) :
  evo (client b) = Some e →
  d ∈ devices e →
  (qualifies SENSOR_ATTRS d → d ∉ sensors b →
     requests_for "sensor" (trace_of (update b)) = [request "sensor" b]
     ∧ sensors (broker_of (update b)) = sensors b
     ∧ d ∉ sensors (broker_of (update b)))
  ∧ (qualifies BINARY_SENSOR_ATTRS d → d ∉ binary_sensors b →
     requests_for "binary_sensor" (trace_of (update b)) = [request "binary_sensor" b]
     ∧ binary_sensors (broker_of (update b)) = binary_sensors b
     ∧ d ∉ binary_sensors (broker_of (update b))).
Proof.
  intros He Hin. rewrite update_keeps_broker. split; intros Hq Hout.
  - rewrite (sensor_requests b e He).
    rewrite (comprehension_truthy _ _ d Hin); [tauto|].
    apply is_new_true. tauto.
  - rewrite (binary_sensor_requests b e He).
    rewrite (comprehension_truthy _ _ d Hin); [tauto|].
    apply is_new_true. tauto.
Qed.

Lemma nothing_new (attrs : list string) (tracked inventory : list Device) :
  (∀ d, d ∈ inventory → qualifies attrs d → d ∈ tracked) →
  List.filter (is_new tracked attrs) inventory = [].
Proof.
  intros Hall. apply comprehension_empty. intros d Hd.
  destruct (is_new tracked attrs d) eqn:Hn; [|reflexivity].
  apply is_new_true in Hn. destruct Hn as [Hout Hq].
  exfalso. apply Hout, Hall; assumption.
Qed.

(** C2: take the broker [b] at a first call and the broker [b'] at a
    second call on the same inventory, with every qualifying object in
    the trackers of [b'].  The second call issues no request, and each
    of the two calls publishes one notification. *)
Theorem update_idempotent (b b' : EvoBroker) (e : Evo) :
  evo (client b) = Some e →
  client b' = client b →
  all_tracked BINARY_SENSOR_ATTRS SENSOR_ATTRS e b' →
  requests (trace_of (update b')) = []
  ∧ notifications (trace_of (update b)) = [DispatcherSend DOMAIN]
  ∧ notifications (trace_of (update b')) = [DispatcherSend DOMAIN].
Proof.
  intros He Hc (Hz & Hw & Hs & Hb).
  assert (He' : evo (client b') = Some e) by (rewrite Hc; exact He).
  split; [|split; eapply notifications_of_update; eassumption].
  rewrite (all_requests b' e He').
  rewrite (climate_requests b' e He'), (water_heater_requests b' e He'),
    (sensor_requests b' e He'), (binary_sensor_requests b' e He').
  rewrite (nothing_new _ _ _ Hs), (nothing_new _ _ _ Hb).
  rewrite comprehension_empty.
  2:{ intros z Hin. apply negb_false_iff, py_in_true, Hz, Hin. }
  simpl.
  destruct Hw as [Hw|Hw].
  - rewrite Hw. reflexivity.
  - destruct (water_heater b'); [|congruence].
    simpl. rewrite andb_false_r. reflexivity.
Qed.

(** C3: while [client.evo] is [None], [update] returns normally, hands
    the broker back unchanged, issues no request and publishes no
    notification. *)
Theorem update_without_inventory (b : EvoBroker) :
  evo (client b) = None →
  result_of (update b) = Ok tt
  ∧ broker_of (update b) = b
  ∧ requests (trace_of (update b)) = []
  ∧ notifications (trace_of (update b)) = []
  ∧ trace_of (update b) = [LogDebug "Schema = %s" None].
Proof.
  intros He. rewrite (update_run_none b He). repeat split.
Qed.

(** C4: with an inventory, [update] returns normally and its last
    event is the one notification of the call, sent on [DOMAIN]; all
    requests of the call come before it, whether or not there are any. *)
Theorem update_notifies_once (b : EvoBroker) (e : Evo) :
  evo (client b) = Some e →
  result_of (update b) = Ok tt
  ∧ notifications (trace_of (update b)) = [DispatcherSend DOMAIN]
  ∧ ∃ before,
      trace_of (update b) = before ++ [DispatcherSend DOMAIN]
      ∧ notifications before = []
      ∧ requests before = requests (trace_of (update b)).
Proof.
  intros He. split; [|split].
  - rewrite (update_run_some b e He). reflexivity.
  - apply (notifications_of_update b e He).
  - rewrite (update_run_some b e He). unfold trace_of. simpl.
    match goal with |- ∃ before, ?t = _ ∧ _ => exists (removelast t) end.
    destruct (list_truthy (List.filter (λ z, negb (py_in z (climates b))) (zones e)));
    destruct (obj_truthy (dhw e) && is_none (water_heater b));
    destruct (list_truthy (List.filter (is_new (sensors b) SENSOR_ATTRS) (devices e)));
    destruct (list_truthy
                (List.filter (is_new (binary_sensors b) BINARY_SENSOR_ATTRS) (devices e)));
    (split; [|split]; reflexivity).
Qed.

(** ** The hot-water platform *)

Lemma update_total (b : EvoBroker) : update b = (Ok tt, b, trace_of (update b)).
Proof.
  destruct (evo (client b)) as [e|] eqn:He.
  - rewrite (update_run_some b e He). reflexivity.
  - rewrite (update_run_none b He). reflexivity.
Qed.

Lemma poll_cycles_cons (e : option Evo) (rest : list (option Evo)) (b : EvoBroker) :
  let b1 := broker_of (gateway_sets e b) in
  let next := poll_cycles DOMAIN BINARY_SENSOR_ATTRS SENSOR_ATTRS rest b1 in
  poll_cycles DOMAIN BINARY_SENSOR_ATTRS SENSOR_ATTRS (e :: rest) b
  = (result_of next, broker_of next, trace_of (update b1) ++ trace_of next).
Proof.
  intros b1 next. subst next. simpl poll_cycles.
  unfold mbind, M_bind.
  change (gateway_sets e b) with (Ok tt, b1, @nil Event).
  cbv iota beta.
  pose proof (update_total b1) as Hu.
  destruct (update b1) as [[ru bu] tu].
  unfold trace_of in Hu. simpl in Hu. inversion Hu; subst ru bu.
  destruct (poll_cycles DOMAIN BINARY_SENSOR_ATTRS SENSOR_ATTRS rest b1) as [[r b2] t].
  reflexivity.
Qed.



(** C10: every task [update] creates loads a platform of [DOMAIN] with
    the empty dict as discovery payload, so the payload names no
    device. *)
Theorem update_payload_empty (b : EvoBroker) :
  Forall payload_empty (trace_of (update b))
  ∧ Forall (λ ev, ∀ co, ev = CreateTask co →
              discovered co = ∅ ∧ platform co = DOMAIN
              ∧ load_hass_config co = hass_config b)
           (trace_of (update b))
  ∧ ∀ ev d, ev ∈ trace_of (update b) → ¬ names_device ev d.
Proof.
  assert (Hall : Forall (λ ev, ∀ co, ev = CreateTask co →
              discovered co = ∅ ∧ platform co = DOMAIN
              ∧ load_hass_config co = hass_config b)
           (trace_of (update b))).
  { destruct (evo (client b)) as [e|] eqn:He.
    - rewrite (update_run_some b e He). unfold trace_of. simpl.
      destruct (list_truthy (List.filter (λ z, negb (py_in z (climates b))) (zones e)));
      destruct (obj_truthy (dhw e) && is_none (water_heater b));
      destruct (list_truthy (List.filter (is_new (sensors b) SENSOR_ATTRS) (devices e)));
      destruct (list_truthy
                  (List.filter (is_new (binary_sensors b) BINARY_SENSOR_ATTRS) (devices e)));
      simpl; repeat first [apply List.Forall_nil | apply List.Forall_cons];
      intros co Hco; inversion Hco; subst; simpl; auto.
    - rewrite (update_run_none b He). unfold trace_of. simpl.
      apply List.Forall_cons; [|apply List.Forall_nil].
      intros co Hco. discriminate Hco. }
  split; [|split].
  - eapply Forall_impl; [exact Hall|]. intros [fmt arg|co|sig] Hev; simpl; auto.
    apply (Hev co eq_refl).
  - exact Hall.
  - intros ev d Hin Hnames. rewrite Forall_forall in Hall.
    destruct ev as [fmt arg|co|sig]; simpl in Hnames; try contradiction.
    destruct Hnames as [k Hk].
    destruct (Hall _ Hin co eq_refl) as [Hempty _].
    rewrite Hempty, lookup_empty in Hk. discriminate.
Qed.

End BrokerFacts.

(** ** Entity attributes *)

(** C7, as the code has it: the attribute map of every entity class has
    the key "controller"; its value is the id of the device's controller
    when there is one, and [None] when there is none. *)
Theorem controller_attribute (self : EvoEntity) :
  let v := match _ctl (_evo_device self) with
           | Some c => PyStr (ctl_id c)
           | None => PyNone
           end in
  EvoEntity.device_state_attributes self !! "controller" = Some v
  ∧ EvoDeviceBase.device_state_attributes self !! "controller" = Some v
  ∧ EvoZoneBase.device_state_attributes self !! "controller" = Some v.
Proof.
  intros v. subst v.
  unfold EvoZoneBase.device_state_attributes, EvoDeviceBase.device_state_attributes,
    EvoEntity.device_state_attributes, attr_or_none.
  split; [|split].
  - apply lookup_singleton_eq.
  - rewrite lookup_insert_ne by discriminate.
    rewrite lookup_insert_ne by discriminate.
    apply lookup_singleton_eq.
  - apply lookup_singleton_eq.
Qed.

(** ** Configuration *)

(** C8: the scan interval is accepted exactly when [cv.time_period] reads
    it as a period of at least 10 seconds, and is then returned as read; a
    shorter period is refused; and a configuration without the key gets
    300 seconds. *)
Theorem scan_interval_floor (Other : Type) (read_other : Other → option timedelta) :
  (∀ v td,
     scan_interval_schema Other read_other (Some v) = Valid td ↔
     time_period Other read_other v = Valid td ∧ (timedelta_seconds 10 ≤ td)%Z)
  ∧ (∀ td,
       scan_interval_schema Other read_other (Some (CvTimedelta td)) = Valid td ↔
       (timedelta_seconds 10 ≤ td)%Z)
  ∧ (∀ v td,
       time_period Other read_other v = Valid td → (td < timedelta_seconds 10)%Z →
       ∃ msg, scan_interval_schema Other read_other (Some v) = Invalid msg)
  ∧ scan_interval_schema Other read_other None = Valid (timedelta_seconds 300).
Proof.
  assert (Hrange : ∀ td r,
            Range_min SCAN_INTERVAL_MINIMUM td = Valid r ↔
            td = r ∧ (timedelta_seconds 10 ≤ td)%Z).
  { intros td r. unfold Range_min, SCAN_INTERVAL_MINIMUM.
    destruct (Z.leb_spec (timedelta_seconds 10) td) as [Hle|Hlt]; simpl.
    - split; [intros [= ->]; auto | intros [-> _]; reflexivity].
    - split; [discriminate | intros [_ Hle]; lia]. }
  split; [|split; [|split]].
  - intros v td. unfold scan_interval_schema, Optional_default, All.
    destruct (time_period Other read_other v) as [w|msg].
    + rewrite Hrange. split.
      * intros [-> Hle]. auto.
      * intros [[= ->] Hle]. auto.
    + split; [discriminate | intros [[=] _]].
  - intros td. unfold scan_interval_schema, Optional_default, All. simpl.
    rewrite Hrange. tauto.
  - intros v td Hv Hlt. unfold scan_interval_schema, Optional_default, All.
    rewrite Hv. unfold Range_min, SCAN_INTERVAL_MINIMUM.
    destruct (Z.leb_spec (timedelta_seconds 10) td) as [Hle|_]; [lia|].
    simpl. eauto.
  - reflexivity.
Qed.

(** ** The properties on the concrete system *)

Module S := Scenario.

Ltac by_decision := apply (bool_decide_unpack _); vm_compute; exact I.

Lemma scenario_all_tracked :
  all_tracked S.BINARY_SENSOR_ATTRS S.SENSOR_ATTRS S.system S.settled.
Proof.
  unfold all_tracked. split; [|split; [|split]].
  - apply (proj1 (Forall_forall (λ z, z ∈ climates S.settled) (zones S.system))).
    by_decision.
  - right. discriminate.
  - apply (proj1 (Forall_forall
                    (λ d, qualifies S.SENSOR_ATTRS d → d ∈ sensors S.settled)
                    (devices S.system))).
    by_decision.
  - apply (proj1 (Forall_forall
                    (λ d, qualifies S.BINARY_SENSOR_ATTRS d → d ∈ binary_sensors S.settled)
                    (devices S.system))).
    by_decision.
Defined.

(** The thermostat qualifies as a sensor and nothing is tracked yet: one
    request for the sensor platform, and the tracker list still empty. *)
Lemma update_requests_category_witness :
  evo (client S.fresh) = Some S.system
  ∧ S.stat ∈ devices S.system
  ∧ qualifies S.SENSOR_ATTRS S.stat
  ∧ (S.stat ∉ sensors S.fresh)
  ∧ requests_for "sensor"
      (trace_of (update S.DOMAIN S.BINARY_SENSOR_ATTRS S.SENSOR_ATTRS S.fresh))
    = [CreateTask (AsyncLoadPlatform "sensor" S.DOMAIN ∅ (Some []))]
  ∧ sensors (broker_of (update S.DOMAIN S.BINARY_SENSOR_ATTRS S.SENSOR_ATTRS S.fresh)) = [].
Proof.
  assert (He : evo (client S.fresh) = Some S.system) by reflexivity.
  assert (Hin : S.stat ∈ devices S.system) by by_decision.
  assert (Hq : qualifies S.SENSOR_ATTRS S.stat) by by_decision.
  assert (Hout : S.stat ∉ sensors S.fresh) by by_decision.
  destruct (update_requests_category S.DOMAIN S.BINARY_SENSOR_ATTRS S.SENSOR_ATTRS
              S.fresh S.system S.stat He Hin) as [Hs _].
  destruct (Hs Hq Hout) as (Hreq & Hkeep & _).
  repeat split; assumption.
Defined.

(** C1 does not hold of the code: the thermostat qualifies and is not
    tracked, yet after [update] it is still not in [broker.sensors], and
    the one request names no device. *)
Lemma update_does_not_mark_tracker :
  let after := update S.DOMAIN S.BINARY_SENSOR_ATTRS S.SENSOR_ATTRS S.fresh in
  ¬ (evo (client S.fresh) = Some S.system →
     S.stat ∈ devices S.system →
     qualifies S.SENSOR_ATTRS S.stat →
     S.stat ∉ sensors S.fresh →
     (∃ ev, requests_for "sensor" (trace_of after) = [ev] ∧ names_device ev S.stat)
     ∧ S.stat ∈ sensors (broker_of after)).
Proof.
  intros after Hclaim.
  assert (He : evo (client S.fresh) = Some S.system) by reflexivity.
  assert (Hin : S.stat ∈ devices S.system) by by_decision.
  assert (Hq : qualifies S.SENSOR_ATTRS S.stat) by by_decision.
  assert (Hout : S.stat ∉ sensors S.fresh) by by_decision.
  destruct (Hclaim He Hin Hq Hout) as [_ Hmarked].
  subst after. rewrite update_keeps_broker in Hmarked.
  exact (Hout Hmarked).
Qed.

Lemma update_idempotent_witness :
  evo (client S.fresh) = Some S.system
  ∧ client S.settled = client S.fresh
  ∧ all_tracked S.BINARY_SENSOR_ATTRS S.SENSOR_ATTRS S.system S.settled
  ∧ requests (trace_of (update S.DOMAIN S.BINARY_SENSOR_ATTRS S.SENSOR_ATTRS S.settled)) = []
  ∧ notifications (trace_of (update S.DOMAIN S.BINARY_SENSOR_ATTRS S.SENSOR_ATTRS S.fresh))
    = [DispatcherSend S.DOMAIN]
  ∧ notifications (trace_of (update S.DOMAIN S.BINARY_SENSOR_ATTRS S.SENSOR_ATTRS S.settled))
    = [DispatcherSend S.DOMAIN].
Proof.
  split; [reflexivity|]. split; [reflexivity|]. split; [exact scenario_all_tracked|].
  exact (update_idempotent S.DOMAIN S.BINARY_SENSOR_ATTRS S.SENSOR_ATTRS
           S.fresh S.settled S.system eq_refl eq_refl scenario_all_tracked).
Defined.

Lemma update_without_inventory_witness :
  evo (client S.unsynced) = None
  ∧ result_of (update S.DOMAIN S.BINARY_SENSOR_ATTRS S.SENSOR_ATTRS S.unsynced) = Ok tt
  ∧ broker_of (update S.DOMAIN S.BINARY_SENSOR_ATTRS S.SENSOR_ATTRS S.unsynced) = S.unsynced
  ∧ requests (trace_of (update S.DOMAIN S.BINARY_SENSOR_ATTRS S.SENSOR_ATTRS S.unsynced)) = []
  ∧ notifications (trace_of (update S.DOMAIN S.BINARY_SENSOR_ATTRS S.SENSOR_ATTRS S.unsynced))
    = []
  ∧ trace_of (update S.DOMAIN S.BINARY_SENSOR_ATTRS S.SENSOR_ATTRS S.unsynced)
    = [LogDebug "Schema = %s" None].
Proof.
  split; [reflexivity|].
  exact (update_without_inventory S.DOMAIN S.BINARY_SENSOR_ATTRS S.SENSOR_ATTRS
           S.unsynced eq_refl).
Defined.

Lemma update_notifies_once_witness :
  evo (client S.fresh) = Some S.system
  ∧ result_of (update S.DOMAIN S.BINARY_SENSOR_ATTRS S.SENSOR_ATTRS S.fresh) = Ok tt
  ∧ notifications (trace_of (update S.DOMAIN S.BINARY_SENSOR_ATTRS S.SENSOR_ATTRS S.fresh))
    = [DispatcherSend S.DOMAIN].
Proof.
  split; [reflexivity|].
  destruct (update_notifies_once S.DOMAIN S.BINARY_SENSOR_ATTRS S.SENSOR_ATTRS
              S.fresh S.system eq_refl) as (Hr & Hn & _).
  split; assumption.
Defined.

Lemma new_devices_subsequence_witness :
  evo (client S.fresh) = Some S.system
  ∧ result_of (new_sensors S.SENSOR_ATTRS S.fresh) = Ok [S.trv; S.stat; S.cylinder]
  ∧ result_of (new_binary_sensors S.BINARY_SENSOR_ATTRS S.fresh) = Ok [S.trv].
Proof.
  split; [reflexivity|].
  destruct (new_devices_subsequence S.BINARY_SENSOR_ATTRS S.SENSOR_ATTRS
              S.fresh S.system eq_refl) as (Hs & Hb & _).
  split; [exact Hs | exact Hb].
Defined.

(** A broker that differs from [S.fresh] in its climate tracker only. *)
Lemma new_devices_pure_witness :
  let b' := {| client := client S.fresh;
               broker_params := []; config := None; broker_status := None;
               binary_sensors := []; climates := [S.lounge]; water_heater := None;
               sensors := []; hass_config := None |} in
  evo (client b') = evo (client S.fresh)
  ∧ sensors b' = sensors S.fresh
  ∧ result_of (new_sensors S.SENSOR_ATTRS b') = result_of (new_sensors S.SENSOR_ATTRS S.fresh)
  ∧ broker_of (new_sensors S.SENSOR_ATTRS S.fresh) = S.fresh.
Proof.
  intros b'.
  destruct (new_devices_pure S.BINARY_SENSOR_ATTRS S.SENSOR_ATTRS S.fresh)
    as ((Hframe & _) & _ & Hsame & _).
  split; [reflexivity|]. split; [reflexivity|].
  split; [exact (Hsame b' eq_refl eq_refl) | exact Hframe].
Defined.



Lemma update_payload_empty_witness :
  CreateTask (AsyncLoadPlatform "sensor" S.DOMAIN ∅ (Some []))
    ∈ trace_of (update S.DOMAIN S.BINARY_SENSOR_ATTRS S.SENSOR_ATTRS S.fresh)
  ∧ ¬ names_device (CreateTask (AsyncLoadPlatform "sensor" S.DOMAIN ∅ (Some []))) S.stat.
Proof.
  assert (Hin : CreateTask (AsyncLoadPlatform "sensor" S.DOMAIN ∅ (Some []))
                ∈ trace_of (update S.DOMAIN S.BINARY_SENSOR_ATTRS S.SENSOR_ATTRS S.fresh)).
  { vm_compute. do 3 apply list_elem_of_further. apply list_elem_of_here. }
  split; [exact Hin|].
  destruct (update_payload_empty S.DOMAIN S.BINARY_SENSOR_ATTRS S.SENSOR_ATTRS S.fresh)
    as (_ & _ & Hnone).
  exact (Hnone _ S.stat Hin).
Defined.

(** An entity for the thermostat, which has no controller. *)
Lemma controller_entry_present :
  let ent := {| _evo_device := S.stat; _unique_id := None; _name := None |} in
  ¬ (_ctl (_evo_device ent) = None →
     EvoEntity.device_state_attributes ent !! "controller" = None).
Proof.
  intros ent Hclaim.
  specialize (Hclaim eq_refl).
  unfold EvoEntity.device_state_attributes in Hclaim.
  rewrite lookup_singleton_eq in Hclaim. discriminate Hclaim.
Qed.

(** Seconds given as a number, read as Home Assistant reads them. *)
Lemma scan_interval_floor_witness :
  let read := λ s : Z, Some (timedelta_seconds s) in
  scan_interval_schema Z read (Some (CvOther 10%Z)) = Valid (timedelta_seconds 10)
  ∧ (∃ msg, scan_interval_schema Z read (Some (CvOther 9%Z)) = Invalid msg)
  ∧ scan_interval_schema Z read None = Valid (timedelta_seconds 300).
Proof.
  intros read.
  destruct (scan_interval_floor Z read) as (Hiff & _ & Hshort & Hdefault).
  split; [|split].
  - apply Hiff. split; [reflexivity | vm_compute; discriminate].
  - apply (Hshort (CvOther 9%Z) (timedelta_seconds 9)); [reflexivity | reflexivity].
  - exact Hdefault.
Defined.

(** * Further properties of the poll cycle *)

Lemma comprehension_truthy_iff {A} (f : A → bool) (l : list A) :
  list_truthy (List.filter f l) = true ↔ ∃ x, x ∈ l ∧ f x = true.
Proof.
  split.
  - induction l as [|y l IH]; simpl; [discriminate|].
    destruct (f y) eqn:Hfy.
    + intros _. exists y. split; [left | exact Hfy].
    + intros Ht. destruct (IH Ht) as (x & Hx & Hfx).
      exists x. split; [right; exact Hx | exact Hfx].
  - intros (x & Hx & Hfx). exact (comprehension_truthy f l x Hx Hfx).
Qed.

Lemma if_singleton_nonempty {A} (c : bool) (x : A) :
  (if c then [x] else []) ≠ [] ↔ c = true.
Proof. destruct c; split; congruence. Qed.

Lemma if_singleton_eq {A} (c : bool) (x : A) :
  (if c then [x] else []) = [x] ↔ c = true.
Proof. destruct c; split; congruence. Qed.

Section PollFacts.

Variable DOMAIN : string.
Variable BINARY_SENSOR_ATTRS : list string.
Variable SENSOR_ATTRS : list string.

Abbreviation request c b := (CreateTask (AsyncLoadPlatform c DOMAIN ∅ (hass_config b))).
Abbreviation update := (update DOMAIN BINARY_SENSOR_ATTRS SENSOR_ATTRS).
Abbreviation poll_cycles := (poll_cycles DOMAIN BINARY_SENSOR_ATTRS SENSOR_ATTRS).

(** X1: [update] asks for the climate platform exactly when there is an
    inventory with a zone that is not in [broker.climates], and then asks
    once. *)
Theorem climate_requested_iff (b : EvoBroker) :
  (requests_for "climate" (trace_of (update b)) ≠ [] ↔
     ∃ e z, evo (client b) = Some e ∧ z ∈ zones e ∧ z ∉ climates b)
  ∧ (requests_for "climate" (trace_of (update b)) = [request "climate" b]
     ∨ requests_for "climate" (trace_of (update b)) = []).
Proof.
  destruct (evo (client b)) as [e|] eqn:He.
  - rewrite (climate_requests DOMAIN BINARY_SENSOR_ATTRS SENSOR_ATTRS b e He).
    split.
    + rewrite if_singleton_nonempty, comprehension_truthy_iff. split.
      * intros (z & Hz & Hnew). exists e, z. repeat split; [exact Hz|].
        apply py_in_false, negb_true_iff, Hnew.
      * intros (e' & z & [= <-] & Hz & Hout). exists z. split; [exact Hz|].
        apply negb_true_iff, py_in_false, Hout.
    + destruct (list_truthy _); [left | right]; reflexivity.
  - rewrite (update_run_none DOMAIN BINARY_SENSOR_ATTRS SENSOR_ATTRS b He).
    split; [|right; reflexivity].
    split; [intros Hne; exfalso; apply Hne; reflexivity|].
    intros (e & z & Habs & _). discriminate Habs.
Qed.

(** X2: [update] asks for the sensor platform exactly when some device of
    the inventory is outside [broker.sensors] and exposes one of
    [SENSOR_ATTRS], and for the binary-sensor platform likewise; each is
    asked for at most once per call. *)
Theorem sensor_requested_iff (b : EvoBroker) :
  (requests_for "sensor" (trace_of (update b)) ≠ [] ↔
     ∃ e d, evo (client b) = Some e ∧ d ∈ devices e
            ∧ (d ∉ sensors b) ∧ qualifies SENSOR_ATTRS d)
  ∧ (requests_for "binary_sensor" (trace_of (update b)) ≠ [] ↔
     ∃ e d, evo (client b) = Some e ∧ d ∈ devices e
            ∧ (d ∉ binary_sensors b) ∧ qualifies BINARY_SENSOR_ATTRS d)
  ∧ (length (requests_for "sensor" (trace_of (update b))) ≤ 1)%nat
  ∧ (length (requests_for "binary_sensor" (trace_of (update b))) ≤ 1)%nat.
Proof.
  destruct (evo (client b)) as [e|] eqn:He.
  - rewrite (sensor_requests DOMAIN BINARY_SENSOR_ATTRS SENSOR_ATTRS b e He).
    rewrite (binary_sensor_requests DOMAIN BINARY_SENSOR_ATTRS SENSOR_ATTRS b e He).
    rewrite !if_singleton_nonempty, !comprehension_truthy_iff.
    split; [|split; [|split]].
    + split.
      * intros (d & Hd & Hnew). apply is_new_true in Hnew. exists e, d. tauto.
      * intros (e' & d & [= <-] & Hd & Hout & Hq). exists d. split; [exact Hd|].
        apply is_new_true. tauto.
    + split.
      * intros (d & Hd & Hnew). apply is_new_true in Hnew. exists e, d. tauto.
      * intros (e' & d & [= <-] & Hd & Hout & Hq). exists d. split; [exact Hd|].
        apply is_new_true. tauto.
    + destruct (list_truthy _); simpl; lia.
    + destruct (list_truthy (List.filter (is_new (binary_sensors b) _) _)); simpl; lia.
  - rewrite (update_run_none DOMAIN BINARY_SENSOR_ATTRS SENSOR_ATTRS b He).
    unfold trace_of; simpl.
    split; [|split; [|split]]; try lia.
    + split; [intros Hne; exfalso; apply Hne; reflexivity|].
      intros (e & d & Habs & _). discriminate Habs.
    + split; [intros Hne; exfalso; apply Hne; reflexivity|].
      intros (e & d & Habs & _). discriminate Habs.
Qed.

(** X3: the requests of one call are taken, in this order, from climate,
    water heater, sensor, binary sensor: never more than four, never two
    for one platform, never in another order. *)
Theorem update_requests_in_order (b : EvoBroker) :
  requests (trace_of (update b))
  `sublist_of` [request "climate" b; request "water_heater" b;
                request "sensor" b; request "binary_sensor" b].
Proof.
  destruct (evo (client b)) as [e|] eqn:He.
  - rewrite (update_run_some DOMAIN BINARY_SENSOR_ATTRS SENSOR_ATTRS b e He).
    unfold trace_of. simpl.
    destruct (list_truthy (List.filter (λ z, negb (py_in z (climates b))) (zones e)));
    destruct (obj_truthy (dhw e) && is_none (water_heater b));
    destruct (list_truthy (List.filter (is_new (sensors b) SENSOR_ATTRS) (devices e)));
    destruct (list_truthy
                (List.filter (is_new (binary_sensors b) BINARY_SENSOR_ATTRS) (devices e)));
    simpl; repeat first [apply sublist_nil | apply sublist_skip | apply sublist_cons].
  - rewrite (update_run_none DOMAIN BINARY_SENSOR_ATTRS SENSOR_ATTRS b He).
    apply sublist_nil_l.
Qed.

(** ** Several polls *)

Lemma poll_cycles_step (e : option Evo) (rest : list (option Evo)) (b : EvoBroker) :
  let b1 := broker_of (gateway_sets e b) in
  result_of (poll_cycles (e :: rest) b) = result_of (poll_cycles rest b1)
  ∧ broker_of (poll_cycles (e :: rest) b) = broker_of (poll_cycles rest b1)
  ∧ trace_of (poll_cycles (e :: rest) b)
    = trace_of (update b1) ++ trace_of (poll_cycles rest b1).
Proof.
  intros b1. subst b1.
  rewrite (poll_cycles_cons DOMAIN BINARY_SENSOR_ATTRS SENSOR_ATTRS e rest b).
  repeat split.
Qed.

(** X4: over any number of polls, whatever the gateway finds in between,
    [update] writes nothing on the broker: the four trackers, the cached
    snapshots, the parameters and [hass_config] are as they were; only
    [client.evo] is what the gateway set last.  No poll raises. *)
Theorem poll_cycles_frame (inventories : list (option Evo)) (b : EvoBroker) :
  let after := broker_of (poll_cycles inventories b) in
  result_of (poll_cycles inventories b) = Ok tt
  ∧ sensors after = sensors b
  ∧ binary_sensors after = binary_sensors b
  ∧ climates after = climates b
  ∧ water_heater after = water_heater b
  ∧ config after = config b
  ∧ broker_status after = broker_status b
  ∧ broker_params after = broker_params b
  ∧ hass_config after = hass_config b
  ∧ evo (client after) = default (evo (client b)) (last inventories).
Proof.
  revert b. induction inventories as [|e rest IH]; intros b after; subst after.
  - repeat split.
  - destruct (poll_cycles_step e rest b) as (Hr & Hb & _).
    rewrite Hr, Hb.
    destruct (IH (broker_of (gateway_sets e b)))
      as (H0 & H1 & H2 & H3 & H4 & H5 & H6 & H7 & H8 & H9).
    rewrite H0, H1, H2, H3, H4, H5, H6, H7, H8, H9.
    do 9 (split; [reflexivity|]).
    rewrite last_cons. destruct (last rest); reflexivity.
Qed.

(** X5: as long as nothing records the devices in the trackers, every
    poll on the same inventory repeats the events of the first; a device
    that is new for the sensor platform gets the platform asked for once
    per poll. *)
Theorem polls_repeat_requests (n : nat) (e : Evo) (b : EvoBroker) :
  let b1 := broker_of (gateway_sets (Some e) b) in
  trace_of (poll_cycles (replicate n (Some e)) b)
  = concat (replicate n (trace_of (update b1)))
  ∧ ((∃ d, d ∈ devices e ∧ (d ∉ sensors b) ∧ qualifies SENSOR_ATTRS d) →
     length (requests_for "sensor" (trace_of (poll_cycles (replicate n (Some e)) b))) = n).
Proof.
  intros b1.
  assert (Htrace : ∀ x, broker_of (gateway_sets (Some e) x) = b1 →
            trace_of (poll_cycles (replicate n (Some e)) x)
            = concat (replicate n (trace_of (update b1)))).
  { induction n as [|n IH]; intros x Hx; [reflexivity|].
    simpl replicate.
    destruct (poll_cycles_step (Some e) (replicate n (Some e)) x) as (_ & _ & Ht).
    rewrite Ht, Hx. simpl. f_equal. apply IH. reflexivity. }
  split; [apply Htrace; reflexivity|].
  intros (d & Hd & Hout & Hq).
  rewrite (Htrace b eq_refl).
  assert (Hone : requests_for "sensor" (trace_of (update b1)) = [request "sensor" b1]).
  { rewrite (sensor_requests DOMAIN BINARY_SENSOR_ATTRS SENSOR_ATTRS b1 e eq_refl).
    apply if_singleton_eq, comprehension_truthy_iff.
    exists d. split; [exact Hd|]. apply is_new_true. split; [exact Hout | exact Hq]. }
  clear Htrace. induction n as [|n IH]; [reflexivity|].
  simpl. rewrite requests_for_app, length_app, IH, Hone. reflexivity.
Qed.

(** ** The classifiers and a growing tracker *)

Lemma is_new_antitone (t t' : list Device) (attrs : list string) (d : Device) :
  (∀ x, x ∈ t → x ∈ t') → is_new t' attrs d = true → is_new t attrs d = true.
Proof.
  intros Hsub Hn. apply is_new_true in Hn. apply is_new_true.
  destruct Hn as [Hout Hq]. split; [|exact Hq].
  intros Hin. apply Hout, Hsub, Hin.
Qed.

Lemma filter_sublist_impl {A} (f g : A → bool) (l : list A) :
  (∀ x, g x = true → f x = true) → List.filter g l `sublist_of` List.filter f l.
Proof.
  intros Himp. induction l as [|x l IH]; simpl; [apply sublist_nil|].
  destruct (g x) eqn:Hg.
  - rewrite (Himp x Hg). apply sublist_skip, IH.
  - destruct (f x); [apply sublist_cons, IH | exact IH].
Qed.

(** X6: a larger tracker list never makes a classifier report more: on the
    same inventory, what [new_sensors] returns for the larger list is a
    subsequence of what it returns for the smaller, and so for
    [new_binary_sensors]. *)
Theorem new_devices_shrink (b b' : EvoBroker) (e : Evo) :
  evo (client b) = Some e →
  evo (client b') = Some e →
  ((∀ d, d ∈ sensors b → d ∈ sensors b') →
   ∃ news news',
     result_of (new_sensors SENSOR_ATTRS b) = Ok news
     ∧ result_of (new_sensors SENSOR_ATTRS b') = Ok news'
     ∧ news' `sublist_of` news)
  ∧ ((∀ d, d ∈ binary_sensors b → d ∈ binary_sensors b') →
     ∃ news news',
       result_of (new_binary_sensors BINARY_SENSOR_ATTRS b) = Ok news
       ∧ result_of (new_binary_sensors BINARY_SENSOR_ATTRS b') = Ok news'
       ∧ news' `sublist_of` news).
Proof.
  intros He He'. split; intros Hsub.
  - rewrite (new_sensors_run SENSOR_ATTRS b e He), (new_sensors_run SENSOR_ATTRS b' e He').
    eexists _, _. split; [reflexivity|]. split; [reflexivity|].
    apply filter_sublist_impl. intros d. apply is_new_antitone, Hsub.
  - rewrite (new_binary_sensors_run BINARY_SENSOR_ATTRS b e He),
      (new_binary_sensors_run BINARY_SENSOR_ATTRS b' e He').
    eexists _, _. split; [reflexivity|]. split; [reflexivity|].
    apply filter_sublist_impl. intros d. apply is_new_antitone, Hsub.
Qed.

(** X7: once the devices a classifier returned are in the tracker list,
    next to those that were there, the classifier returns the empty list
    on the same inventory and [update] no longer asks for the platform. *)
Theorem recording_clears_new_devices (b b' : EvoBroker) (e : Evo) (news : list Device) :
  evo (client b) = Some e →
  evo (client b') = Some e →
  result_of (new_sensors SENSOR_ATTRS b) = Ok news →
  (∀ d, d ∈ sensors b ++ news → d ∈ sensors b') →
  result_of (new_sensors SENSOR_ATTRS b') = Ok []
  ∧ requests_for "sensor" (trace_of (update b')) = [].
Proof.
  intros He He' Hnews Hrec.
  rewrite (new_sensors_run SENSOR_ATTRS b e He) in Hnews.
  injection Hnews as Hnews.
  assert (Hnone : List.filter (is_new (sensors b') SENSOR_ATTRS) (devices e) = []).
  { apply nothing_new. intros d Hd Hq. apply Hrec, elem_of_app.
    destruct (decide (d ∈ sensors b)) as [Hin|Hout]; [left; exact Hin|].
    right. rewrite <- Hnews. apply list_elem_of_In, List.filter_In.
    split; [apply list_elem_of_In, Hd|]. apply is_new_true. split; assumption. }
  split.
  - rewrite (new_sensors_run SENSOR_ATTRS b' e He'), Hnone. reflexivity.
  - rewrite (sensor_requests DOMAIN BINARY_SENSOR_ATTRS SENSOR_ATTRS b' e He'), Hnone.
    reflexivity.
Qed.

(** X8: without an inventory the classifiers raise [AttributeError]
    (they read [.devices] of [None]); [update] returns before it calls
    them and raises for no broker at all. *)
Theorem update_never_raises (b : EvoBroker) :
  result_of (update b) = Ok tt
  ∧ (evo (client b) = None →
     result_of (new_sensors SENSOR_ATTRS b) = Raised (AttributeError "NoneType" "devices")
     ∧ result_of (new_binary_sensors BINARY_SENSOR_ATTRS b)
       = Raised (AttributeError "NoneType" "devices")).
Proof.
  split.
  - rewrite (update_total DOMAIN BINARY_SENSOR_ATTRS SENSOR_ATTRS b). reflexivity.
  - intros He.
    unfold new_sensors, new_binary_sensors, mbind, M_bind, gets, raise.
    rewrite He. split; reflexivity.
Qed.

(** X9: the first poll of a broker as [async_setup] builds it
    ([__init__], then [hass_config] set): each platform is asked for
    exactly when the inventory has something for it, and every request
    carries that [hass_config]. *)
Theorem first_poll_requests (c : Client) (p hc : PyDict) (e : Evo) :
  evo c = Some e →
  let b := set_hass_config (EvoBroker__init__ c p) hc in
  (requests_for "climate" (trace_of (update b)) ≠ [] ↔ zones e ≠ [])
  ∧ (requests_for "water_heater" (trace_of (update b)) ≠ [] ↔ dhw e ≠ None)
  ∧ (requests_for "sensor" (trace_of (update b)) ≠ [] ↔
       ∃ d, d ∈ devices e ∧ qualifies SENSOR_ATTRS d)
  ∧ (requests_for "binary_sensor" (trace_of (update b)) ≠ [] ↔
       ∃ d, d ∈ devices e ∧ qualifies BINARY_SENSOR_ATTRS d)
  ∧ Forall (λ ev, ∀ co, ev = CreateTask co → load_hass_config co = Some hc)
           (trace_of (update b)).
Proof.
  intros He b.
  assert (Hb : evo (client b) = Some e) by exact He.
  assert (Hnew : ∀ attrs d, is_new [] attrs d = true ↔ qualifies attrs d).
  { intros attrs d. rewrite is_new_true. split; [tauto|].
    intros Hq. split; [apply not_elem_of_nil | exact Hq]. }
  split; [|split; [|split; [|split]]].
  - rewrite (climate_requests DOMAIN BINARY_SENSOR_ATTRS SENSOR_ATTRS b e Hb).
    rewrite if_singleton_nonempty. simpl.
    destruct (zones e) as [|z zs]; simpl; split; congruence.
  - rewrite (water_heater_requests DOMAIN BINARY_SENSOR_ATTRS SENSOR_ATTRS b e Hb).
    rewrite if_singleton_nonempty. simpl.
    destruct (dhw e); simpl; split; congruence.
  - rewrite (sensor_requests DOMAIN BINARY_SENSOR_ATTRS SENSOR_ATTRS b e Hb).
    rewrite if_singleton_nonempty, comprehension_truthy_iff. simpl.
    split; intros (d & Hd & H); exists d; (split; [exact Hd|]); apply Hnew, H.
  - rewrite (binary_sensor_requests DOMAIN BINARY_SENSOR_ATTRS SENSOR_ATTRS b e Hb).
    rewrite if_singleton_nonempty, comprehension_truthy_iff. simpl.
    split; intros (d & Hd & H); exists d; (split; [exact Hd|]); apply Hnew, H.
  - rewrite (update_run_some DOMAIN BINARY_SENSOR_ATTRS SENSOR_ATTRS b e Hb).
    unfold trace_of. cbn [snd].
    repeat match goal with
           | |- context [if ?c then _ else _] => destruct c
           end;
    simpl; repeat first [apply List.Forall_nil | apply List.Forall_cons];
    intros co Hco; inversion Hco; subst; reflexivity.
Qed.

End PollFacts.

(** * Entities *)

(** X10: the attribute map of [EvoDeviceBase] has exactly the keys
    "controller", "domain_id" and "zone_name"; it keeps every entry of
    the base class; "zone_name" is the name of the device's zone, or
    [None] for a device without zone. *)
Theorem device_base_attributes (self : EvoEntity) :
  dom (EvoDeviceBase.device_state_attributes self)
  = ({["controller"; "domain_id"; "zone_name"]} : gset string)
  ∧ EvoEntity.device_state_attributes self ⊆ EvoDeviceBase.device_state_attributes self
  ∧ EvoDeviceBase.device_state_attributes self !! "zone_name"
    = Some (match zone (_evo_device self) with
            | Some z => PyStr (name z)
            | None => PyNone
            end)
  ∧ EvoDeviceBase.device_state_attributes self !! "domain_id"
    = Some (match _domain_id (_evo_device self) with
            | Some s => PyStr s
            | None => PyNone
            end).
Proof.
  unfold EvoDeviceBase.device_state_attributes, EvoEntity.device_state_attributes.
  split; [|split; [|split]].
  - rewrite !dom_insert_L, dom_singleton_L. set_solver.
  - apply map_subseteq_spec. intros k v Hk.
    apply lookup_singleton_Some in Hk. destruct Hk as [<- <-].
    rewrite lookup_insert_ne by discriminate.
    rewrite lookup_insert_ne by discriminate.
    apply lookup_singleton_eq.
  - rewrite lookup_insert_eq. reflexivity.
  - rewrite lookup_insert_ne by discriminate.
    rewrite lookup_insert_eq. reflexivity.
Qed.

Section EntityFacts.

Variable DOMAIN : string.
Variable BINARY_SENSOR_ATTRS : list string.
Variable SENSOR_ATTRS : list string.

Abbreviation update := (update DOMAIN BINARY_SENSOR_ATTRS SENSOR_ATTRS).






End EntityFacts.

(** * Setting up *)

Lemma foldl_insert_lookup {V} (keys : list string) (v : V) (m : gmap string V) (k : string) :
  foldl (λ m k, <[k := v]> m) m keys !! k
  = if decide (k ∈ keys) then Some v else m !! k.
Proof.
  revert m. induction keys as [|x keys IH]; intros m; cbn [foldl].
  - rewrite decide_False by apply not_elem_of_nil. reflexivity.
  - rewrite IH. destruct (decide (k ∈ keys)) as [Hin|Hout].
    + rewrite decide_True by (right; exact Hin). reflexivity.
    + destruct (decide (x = k)) as [->|Hne].
      * rewrite decide_True by left. apply lookup_insert_eq.
      * rewrite decide_False.
        -- apply lookup_insert_ne, Hne.
        -- intros Hin. apply elem_of_cons in Hin. destruct Hin as [->|Hin]; congruence.
Qed.

Lemma dict_fromkeys_lookup {V} (keys : list string) (v : V) (k : string) :
  dict_fromkeys keys v !! k = if decide (k ∈ keys) then Some v else None.
Proof. unfold dict_fromkeys. rewrite foldl_insert_lookup, lookup_empty. reflexivity. Qed.

Section SetupFacts.

Variable DOMAIN : string.
Variable version : string.
Variable evohome_rf_version : string.
Variable Gateway : CfgVal → gmap string CfgVal → GatewayOutcome.
Variable render_domain : gmap string CfgVal → PyDict.
Variable render : gmap string (gmap string CfgVal) → PyDict.

(** The keyword arguments of the gateway, from the integration's part of
    the configuration and the keys of its ignore list. *)
Abbreviation kwargs_of dc keys :=
  (<["loop" := CfgLoop]>
     (<["blocklist" := CfgBlocklist (dict_fromkeys keys [])]>
        (delete "ignore_list" (delete "serial_port" dc)))).

Abbreviation broker_of_setup gw dc hass_config :=
  (set_hass_config (EvoBroker__init__ gw (render_domain dc)) (render hass_config)).

Lemma async_setup_run (app_storage : option PyDict)
    (hass_config : gmap string (gmap string CfgVal)) :
  async_setup DOMAIN version evohome_rf_version Gateway render_domain render
    app_storage hass_config
  = let vlog := if decide (version = evohome_rf_version)
                then SetupLogWarning "versions match (this is good)"
                else SetupLogError "versions don't match (this is bad)" in
    let store := match app_storage with
                 | Some (item :: items) => item :: items
                 | _ => []
                 end in
    match hass_config !! DOMAIN with
    | None => (Failed (KeyError DOMAIN), [vlog; StoreAsyncLoad])
    | Some dc =>
        let pre := [vlog; StoreAsyncLoad; SetupLogDebug "Store = %s, Config =  %s" store] in
        match dc !! "serial_port" with
        | None => (Failed (KeyError "serial_port"), pre)
        | Some sp =>
            match py_iter (default (CfgList []) (dc !! "ignore_list")) with
            | None => (Failed (TypeError "object is not iterable"), pre)
            | Some keys =>
                match dc !! "loop" with
                | Some _ =>
                    (Failed (TypeError "got multiple values for keyword argument 'loop'"),
                     pre)
                | None =>
                    let call := GatewayCall sp (kwargs_of dc keys) in
                    match Gateway sp (kwargs_of dc keys) with
                    | SerialException msg =>
                        (Returned false,
                         pre ++ [call;
                                 SetupLogException
                                   "Unable to open serial port. Message is: %s" msg])
                    | OtherException msg => (Failed (Uncaught msg), pre ++ [call])
                    | GatewayBuilt gw =>
                        let made := [call;
                                     HassDataBroker (broker_of_setup gw dc hass_config);
                                     LoopCreateTask gw] in
                        match dc !! CONF_SCAN_INTERVAL with
                        | None => (Failed (KeyError CONF_SCAN_INTERVAL), pre ++ made)
                        | Some period =>
                            (Returned true, pre ++ made ++ [AsyncTrackTimeInterval period])
                        end
                    end
                end
            end
        end
    end.
Proof.
  unfold async_setup, load_system_config, getitem, tell, throw,
    mbind, Setup_bind, mret, Setup_ret.
  destruct (decide (version = evohome_rf_version));
    (destruct (hass_config !! DOMAIN) as [dc|]; [|reflexivity]);
    (destruct (dc !! "serial_port") as [sp|]; [|reflexivity]);
    simpl; rewrite (lookup_delete_ne dc "serial_port" "ignore_list") by discriminate;
    (destruct (py_iter (default (CfgList []) (dc !! "ignore_list"))) as [keys|];
       [|reflexivity]);
    simpl;
    rewrite lookup_insert_ne by discriminate;
    rewrite !lookup_delete_ne by discriminate;
    (destruct (dc !! "loop") as [own|]; [reflexivity|]);
    simpl;
    (destruct (Gateway sp (kwargs_of dc keys)) as [gw|msg|msg]; [|reflexivity|reflexivity]);
    simpl;
    (destruct (dc !! CONF_SCAN_INTERVAL) as [period|]; reflexivity).
Qed.

Abbreviation async_setup :=
  (async_setup DOMAIN version evohome_rf_version Gateway render_domain render).

Ltac setup_cases hass_config :=
  rewrite async_setup_run; cbv zeta;
  destruct (decide (version = evohome_rf_version));
  (destruct (hass_config !! DOMAIN) as [dc|] eqn:Hdc;
   [destruct (dc !! "serial_port") as [sp|] eqn:Hsp;
    [destruct (py_iter (default (CfgList []) (dc !! "ignore_list"))) as [keys|] eqn:Hkeys;
     [destruct (dc !! "loop") as [own|] eqn:Hloop;
      [|destruct (Gateway sp (kwargs_of dc keys)) as [gw|msg|msg] eqn:Hgw;
        [destruct (dc !! CONF_SCAN_INTERVAL) as [period|] eqn:Hperiod| |] ] |] |] |]);
  simpl.

Ltac in_events H :=
  repeat first
    [ apply elem_of_nil in H; contradiction
    | apply elem_of_cons in H; destruct H as [H|H]; [try discriminate H|] ].

Lemma kwargs_of_lookup (dc : gmap string CfgVal) (keys : list string) :
  kwargs_of dc keys !! "loop" = Some CfgLoop
  ∧ kwargs_of dc keys !! "serial_port" = None
  ∧ kwargs_of dc keys !! "ignore_list" = None
  ∧ kwargs_of dc keys !! "blocklist" = Some (CfgBlocklist (dict_fromkeys keys []))
  ∧ ∀ k, k ≠ "serial_port" → k ≠ "ignore_list" → k ≠ "blocklist" → k ≠ "loop" →
         kwargs_of dc keys !! k = dc !! k.
Proof.
  split; [|split; [|split; [|split]]].
  - apply lookup_insert_eq.
  - rewrite !lookup_insert_ne by discriminate.
    rewrite lookup_delete_ne by discriminate. apply lookup_delete_eq.
  - rewrite !lookup_insert_ne by discriminate. apply lookup_delete_eq.
  - rewrite lookup_insert_ne by discriminate. apply lookup_insert_eq.
  - intros k H1 H2 H3 H4.
    rewrite !lookup_insert_ne by congruence.
    rewrite lookup_delete_ne by congruence.
    apply lookup_delete_ne. congruence.
Qed.

(** X12: [async_setup] calls [Gateway(serial_port, loop=hass.loop,
    **kwargs)].  Whenever the constructor is reached, it gets the
    configured serial port and, as keywords: [loop], the host's event
    loop; a "blocklist" that maps every entry of the ignore list (none,
    if the key is missing) to an empty dict and has no other key; and
    every key of the integration's configuration other than
    "serial_port", "ignore_list", "blocklist" and "loop", unchanged;
    "serial_port" and "ignore_list" are not among the keywords.  A
    configuration with a key "loop" of its own never reaches the
    constructor: the call raises [TypeError], unless [async_setup] has
    raised before. *)
Theorem gateway_receives_kwargs (app_storage : option PyDict)
    (hass_config : gmap string (gmap string CfgVal))
    (serial_port : CfgVal) (kwargs : gmap string CfgVal) :
  let run := async_setup app_storage hass_config in
  (GatewayCall serial_port kwargs ∈ run.2 →
   ∃ dc keys,
     hass_config !! DOMAIN = Some dc
     ∧ dc !! "serial_port" = Some serial_port
     ∧ py_iter (default (CfgList []) (dc !! "ignore_list")) = Some keys
     ∧ dc !! "loop" = None
     ∧ kwargs !! "loop" = Some CfgLoop
     ∧ kwargs !! "serial_port" = None
     ∧ kwargs !! "ignore_list" = None
     ∧ (∃ blocklist,
          kwargs !! "blocklist" = Some (CfgBlocklist blocklist)
          ∧ ∀ k, blocklist !! k = if decide (k ∈ keys) then Some [] else None)
     ∧ ∀ k, k ≠ "serial_port" → k ≠ "ignore_list" → k ≠ "blocklist" → k ≠ "loop" →
            kwargs !! k = dc !! k)
  ∧ (∀ dc own,
       hass_config !! DOMAIN = Some dc →
       dc !! "loop" = Some own →
       (∃ e, run.1 = Failed e)
       ∧ (∀ sp kw, GatewayCall sp kw ∉ run.2)
       ∧ (∀ sp keys,
            dc !! "serial_port" = Some sp →
            py_iter (default (CfgList []) (dc !! "ignore_list")) = Some keys →
            run.1 = Failed (TypeError "got multiple values for keyword argument 'loop'"))).
Proof.
  intros run. subst run. split.
  - setup_cases hass_config; intros Hin; in_events Hin;
      injection Hin as -> ->;
      destruct (kwargs_of_lookup dc keys) as (K0 & K1 & K2 & K3 & K4);
      exists dc, keys; (do 7 (split; [assumption || reflexivity|]));
      (split; [|exact K4]);
      exists (dict_fromkeys keys []); (split; [exact K3|]);
      intros k; apply dict_fromkeys_lookup.
  - setup_cases hass_config; intros dc' own' Hd Hl;
      try discriminate Hd; injection Hd as <-; try congruence;
      (split; [eexists; reflexivity|]);
      (split; [intros sp' kw' Hin; in_events Hin|]);
      intros sp' keys' Hs' Hk'; first [congruence | reflexivity].
Qed.

(** X13: [async_setup] returns [False] exactly when the gateway's
    constructor raises [SerialException]; it has then logged the
    exception last and has stored no broker, started no task and
    registered no timer. *)
Theorem setup_serial_failure (app_storage : option PyDict)
    (hass_config : gmap string (gmap string CfgVal)) :
  let run := async_setup app_storage hass_config in
  (run.1 = Returned false ↔
     ∃ sp kw msg, GatewayCall sp kw ∈ run.2 ∧ Gateway sp kw = SerialException msg)
  ∧ (run.1 = Returned false →
     List.filter sets_up run.2 = []
     ∧ ∃ msg, last run.2
              = Some (SetupLogException "Unable to open serial port. Message is: %s" msg)).
Proof.
  intros run. subst run.
  setup_cases hass_config;
    (split;
     [ split;
       [ intros Hr;
         first [ discriminate Hr
               | eexists sp, _, msg; split; [do 3 right; left; reflexivity | exact Hgw] ]
       | intros (sp' & kw' & msg' & Hin & Hser); in_events Hin;
         first [ injection Hin as -> ->; congruence | reflexivity ] ]
     | intros Hr;
       first [ discriminate Hr | split; [reflexivity | eexists; reflexivity] ] ]).
Qed.

(** X14: [async_setup] returns [True] exactly when it has registered the
    timer; its last four steps are then: build the gateway, store a
    broker made by [__init__] for that gateway with [hass_config] set,
    start the gateway's task, and register [update] under the configured
    scan interval; nothing is set up before them. *)
Theorem setup_success (app_storage : option PyDict)
    (hass_config : gmap string (gmap string CfgVal)) :
  let run := async_setup app_storage hass_config in
  (run.1 = Returned true ↔ ∃ period, AsyncTrackTimeInterval period ∈ run.2)
  ∧ (run.1 = Returned true →
     ∃ pre dc sp kw gw period,
       run.2 = pre ++ [GatewayCall sp kw;
                       HassDataBroker (broker_of_setup gw dc hass_config);
                       LoopCreateTask gw;
                       AsyncTrackTimeInterval period]
       ∧ List.filter sets_up pre = []
       ∧ hass_config !! DOMAIN = Some dc
       ∧ Gateway sp kw = GatewayBuilt gw
       ∧ dc !! CONF_SCAN_INTERVAL = Some period).
Proof.
  intros run. subst run.
  setup_cases hass_config;
    (split;
     [ split;
       [ intros Hr;
         first [ discriminate Hr | exists period; do 6 right; left; reflexivity ]
       | intros (p & Hin); in_events Hin; reflexivity ]
     | intros Hr;
       first [ discriminate Hr
             | eexists [_; _; _], dc, sp, _, gw, period;
               split; [reflexivity|]; split; [reflexivity|];
               split; [reflexivity|]; split; [exact Hgw | exact Hperiod] ] ]).
Qed.

(** X15: with a configuration that lacks the scan interval, a gateway
    that could be built is built, the broker is stored and the gateway's
    task started, and only then does [async_setup] raise [KeyError]: no
    timer is registered. *)
Theorem setup_missing_interval (app_storage : option PyDict)
    (hass_config : gmap string (gmap string CfgVal))
    (domain_config : gmap string CfgVal) (serial_port : CfgVal)
    (kwargs : gmap string CfgVal) (gateway : Client) :
  let run := async_setup app_storage hass_config in
  hass_config !! DOMAIN = Some domain_config →
  domain_config !! CONF_SCAN_INTERVAL = None →
  GatewayCall serial_port kwargs ∈ run.2 →
  Gateway serial_port kwargs = GatewayBuilt gateway →
  run.1 = Failed (KeyError CONF_SCAN_INTERVAL)
  ∧ List.filter sets_up run.2
    = [HassDataBroker (broker_of_setup gateway domain_config hass_config);
       LoopCreateTask gateway].
Proof.
  intros run. subst run.
  setup_cases hass_config; intros Hd Hp Hin Hgw';
    try discriminate Hd; injection Hd as <-;
    in_events Hin; try (injection Hin as -> ->); try congruence;
    rewrite Hgw in Hgw'; injection Hgw' as ->; split; reflexivity.
Qed.

(** X16: a configuration without the integration's entry or without the
    serial port, or with an ignore list that cannot be iterated, makes
    [async_setup] raise before the gateway is built: nothing is set up. *)
Theorem setup_early_failures (app_storage : option PyDict)
    (hass_config : gmap string (gmap string CfgVal)) :
  let run := async_setup app_storage hass_config in
  (hass_config !! DOMAIN = None →
     run.1 = Failed (KeyError DOMAIN)
     ∧ List.filter sets_up run.2 = [] ∧ ∀ sp kw, GatewayCall sp kw ∉ run.2)
  ∧ (∀ dc, hass_config !! DOMAIN = Some dc → dc !! "serial_port" = None →
     run.1 = Failed (KeyError "serial_port")
     ∧ List.filter sets_up run.2 = [] ∧ ∀ sp kw, GatewayCall sp kw ∉ run.2)
  ∧ (∀ dc sp, hass_config !! DOMAIN = Some dc → dc !! "serial_port" = Some sp →
     py_iter (default (CfgList []) (dc !! "ignore_list")) = None →
     run.1 = Failed (TypeError "object is not iterable")
     ∧ List.filter sets_up run.2 = [] ∧ ∀ sp kw, GatewayCall sp kw ∉ run.2).
Proof.
  intros run. subst run.
  setup_cases hass_config;
    ((split; [|split]);
     [ intros Hd | intros dc' Hd Hs | intros dc' sp' Hd Hs Hk ]);
    try discriminate Hd; try (injection Hd as <-); try congruence;
    (split; [reflexivity|]); (split; [reflexivity|]);
    intros sp'' kw'' Hin; in_events Hin.
Qed.

End SetupFacts.

(** X17: the comparison of the two version strings decides the first
    log entry, a warning when they are equal and an error when they
    differ, and nothing else: result and later steps are the same. *)
Theorem version_check_only_logs (DOMAIN : string) (v1 v2 v1' v2' : string)
    (Gateway : CfgVal → gmap string CfgVal → GatewayOutcome)
    (render_domain : gmap string CfgVal → PyDict)
    (render : gmap string (gmap string CfgVal) → PyDict)
    (app_storage : option PyDict) (hass_config : gmap string (gmap string CfgVal)) :
  let run := async_setup DOMAIN v1 v2 Gateway render_domain render app_storage hass_config in
  let run' := async_setup DOMAIN v1' v2' Gateway render_domain render app_storage hass_config in
  run.1 = run'.1
  ∧ tail run.2 = tail run'.2
  ∧ head run.2 = Some (if decide (v1 = v2)
                       then SetupLogWarning "versions match (this is good)"
                       else SetupLogError "versions don't match (this is bad)").
Proof.
  intros run run'. subst run run'.
  rewrite !async_setup_run. cbv zeta.
  destruct (hass_config !! DOMAIN) as [dc|]; [|repeat split].
  destruct (dc !! "serial_port") as [sp|]; [|repeat split].
  destruct (py_iter (default (CfgList []) (dc !! "ignore_list"))) as [keys|]; [|repeat split].
  destruct (dc !! "loop") as [own|]; [repeat split|].
  destruct (Gateway sp _) as [gw|msg|msg]; [|repeat split..].
  destruct (dc !! CONF_SCAN_INTERVAL); repeat split.
Qed.

(** * The further properties on the concrete system *)

Module SC := SetupScenario.

Lemma polls_repeat_requests_witness :
  (S.stat ∈ devices S.system ∧ (S.stat ∉ sensors S.fresh)
   ∧ qualifies S.SENSOR_ATTRS S.stat)
  ∧ length (requests_for "sensor"
              (trace_of (poll_cycles S.DOMAIN S.BINARY_SENSOR_ATTRS S.SENSOR_ATTRS
                           (replicate 3 (Some S.system)) S.fresh))) = 3.
Proof.
  assert (Hnew : S.stat ∈ devices S.system ∧ (S.stat ∉ sensors S.fresh)
                 ∧ qualifies S.SENSOR_ATTRS S.stat).
  { split; [by_decision|]. split; by_decision. }
  split; [exact Hnew|].
  apply (polls_repeat_requests S.DOMAIN S.BINARY_SENSOR_ATTRS S.SENSOR_ATTRS
           3 S.system S.fresh).
  exists S.stat. exact Hnew.
Defined.

Lemma new_devices_shrink_witness :
  evo (client S.fresh) = Some S.system
  ∧ evo (client S.settled) = Some S.system
  ∧ (∀ d, d ∈ sensors S.fresh → d ∈ sensors S.settled)
  ∧ ∃ news news',
      result_of (new_sensors S.SENSOR_ATTRS S.fresh) = Ok news
      ∧ result_of (new_sensors S.SENSOR_ATTRS S.settled) = Ok news'
      ∧ news' `sublist_of` news.
Proof.
  assert (Hsub : ∀ d, d ∈ sensors S.fresh → d ∈ sensors S.settled).
  { intros d Hd. apply elem_of_nil in Hd. contradiction. }
  split; [reflexivity|]. split; [reflexivity|]. split; [exact Hsub|].
  exact (proj1 (new_devices_shrink S.BINARY_SENSOR_ATTRS S.SENSOR_ATTRS
                  S.fresh S.settled S.system eq_refl eq_refl) Hsub).
Defined.

Lemma recording_clears_new_devices_witness :
  evo (client S.fresh) = Some S.system
  ∧ evo (client S.settled) = Some S.system
  ∧ result_of (new_sensors S.SENSOR_ATTRS S.fresh) = Ok [S.trv; S.stat; S.cylinder]
  ∧ (∀ d, d ∈ sensors S.fresh ++ [S.trv; S.stat; S.cylinder] → d ∈ sensors S.settled)
  ∧ result_of (new_sensors S.SENSOR_ATTRS S.settled) = Ok []
  ∧ requests_for "sensor"
      (trace_of (update S.DOMAIN S.BINARY_SENSOR_ATTRS S.SENSOR_ATTRS S.settled)) = [].
Proof.
  assert (Hnews : result_of (new_sensors S.SENSOR_ATTRS S.fresh)
                  = Ok [S.trv; S.stat; S.cylinder]) by reflexivity.
  assert (Hrec : ∀ d, d ∈ sensors S.fresh ++ [S.trv; S.stat; S.cylinder]
                      → d ∈ sensors S.settled) by (intros d Hd; exact Hd).
  split; [reflexivity|]. split; [reflexivity|]. split; [exact Hnews|]. split; [exact Hrec|].
  exact (recording_clears_new_devices S.DOMAIN S.BINARY_SENSOR_ATTRS S.SENSOR_ATTRS
           S.fresh S.settled S.system _ eq_refl eq_refl Hnews Hrec).
Defined.

Lemma update_never_raises_witness :
  evo (client S.unsynced) = None
  ∧ result_of (update S.DOMAIN S.BINARY_SENSOR_ATTRS S.SENSOR_ATTRS S.unsynced) = Ok tt
  ∧ result_of (new_sensors S.SENSOR_ATTRS S.unsynced)
    = Raised (AttributeError "NoneType" "devices").
Proof.
  destruct (update_never_raises S.DOMAIN S.BINARY_SENSOR_ATTRS S.SENSOR_ATTRS S.unsynced)
    as [Hok Hraise].
  split; [reflexivity|]. split; [exact Hok|].
  exact (proj1 (Hraise eq_refl)).
Defined.

Lemma first_poll_requests_witness :
  let c := {| evo := Some S.system |} in
  let b := set_hass_config (EvoBroker__init__ c []) [("evohome_cc", "{...}")] in
  evo c = Some S.system
  ∧ (requests_for "climate"
       (trace_of (update S.DOMAIN S.BINARY_SENSOR_ATTRS S.SENSOR_ATTRS b)) ≠ [] ↔
     zones S.system ≠ [])
  ∧ (requests_for "water_heater"
       (trace_of (update S.DOMAIN S.BINARY_SENSOR_ATTRS S.SENSOR_ATTRS b)) ≠ [] ↔
     dhw S.system ≠ None).
Proof.
  intros c b.
  destruct (first_poll_requests S.DOMAIN S.BINARY_SENSOR_ATTRS S.SENSOR_ATTRS
              c [] [("evohome_cc", "{...}")] S.system eq_refl) as (Hc & Hw & _).
  split; [reflexivity|]. split; [exact Hc | exact Hw].
Defined.


Lemma scenario_gateway_called :
  GatewayCall (CfgStr "/dev/ttyUSB0") SC.kwargs
  ∈ (async_setup "evohome_cc" "0.5.1" "0.5.1" SC.Gateway SC.render_domain SC.render
       None SC.hass_config).2.
Proof. vm_compute. do 3 apply list_elem_of_further. apply list_elem_of_here. Defined.

Lemma gateway_receives_kwargs_witness :
  let run := async_setup "evohome_cc" "0.5.1" "0.5.1" SC.Gateway SC.render_domain SC.render
               None SC.hass_config in
  let run' := async_setup "evohome_cc" "0.5.1" "0.5.1" SC.Gateway SC.render_domain SC.render
                None SC.with_loop in
  (GatewayCall (CfgStr "/dev/ttyUSB0") SC.kwargs ∈ run.2
   ∧ ∃ dc keys,
       SC.hass_config !! "evohome_cc" = Some dc
       ∧ dc !! "serial_port" = Some (CfgStr "/dev/ttyUSB0")
       ∧ py_iter (default (CfgList []) (dc !! "ignore_list")) = Some keys
       ∧ dc !! "loop" = None
       ∧ SC.kwargs !! "loop" = Some CfgLoop
       ∧ SC.kwargs !! "serial_port" = None
       ∧ SC.kwargs !! "ignore_list" = None
       ∧ (∃ blocklist,
            SC.kwargs !! "blocklist" = Some (CfgBlocklist blocklist)
            ∧ ∀ k, blocklist !! k = if decide (k ∈ keys) then Some [] else None)
       ∧ ∀ k, k ≠ "serial_port" → k ≠ "ignore_list" → k ≠ "blocklist" → k ≠ "loop" →
              SC.kwargs !! k = dc !! k)
  ∧ (SC.with_loop !! "evohome_cc" = Some (<["loop" := CfgStr "mine"]> SC.domain_config)
     ∧ <["loop" := CfgStr "mine"]> SC.domain_config !! "loop" = Some (CfgStr "mine")
     ∧ run'.1 = Failed (TypeError "got multiple values for keyword argument 'loop'")
     ∧ ∀ sp kw, GatewayCall sp kw ∉ run'.2).
Proof.
  intros run run'. split.
  - split; [exact scenario_gateway_called|].
    exact (proj1 (gateway_receives_kwargs "evohome_cc" "0.5.1" "0.5.1" SC.Gateway
                    SC.render_domain SC.render None SC.hass_config
                    (CfgStr "/dev/ttyUSB0") SC.kwargs) scenario_gateway_called).
  - assert (Hd : SC.with_loop !! "evohome_cc"
                 = Some (<["loop" := CfgStr "mine"]> SC.domain_config)) by reflexivity.
    assert (Hl : <["loop" := CfgStr "mine"]> SC.domain_config !! "loop"
                 = Some (CfgStr "mine")) by reflexivity.
    destruct (proj2 (gateway_receives_kwargs "evohome_cc" "0.5.1" "0.5.1" SC.Gateway
                       SC.render_domain SC.render None SC.with_loop
                       CfgNone ∅) _ _ Hd Hl) as (_ & Hnocall & Htype).
    split; [exact Hd|]. split; [exact Hl|]. split; [|exact Hnocall].
    exact (Htype (CfgStr "/dev/ttyUSB0") ["12:345678"; "13:111111"; "12:345678"]
             eq_refl eq_refl).
Defined.

Lemma setup_serial_failure_witness :
  let run := async_setup "evohome_cc" "0.5.1" "0.5.2" SC.unplugged
               SC.render_domain SC.render None SC.hass_config in
  run.1 = Returned false
  ∧ List.filter sets_up run.2 = []
  ∧ ∃ sp kw msg, GatewayCall sp kw ∈ run.2 ∧ SC.unplugged sp kw = SerialException msg.
Proof.
  intros run.
  destruct (setup_serial_failure "evohome_cc" "0.5.1" "0.5.2" SC.unplugged
              SC.render_domain SC.render None SC.hass_config) as [Hiff Hclean].
  assert (Hr : run.1 = Returned false) by reflexivity.
  split; [exact Hr|]. split.
  - exact (proj1 (Hclean Hr)).
  - exact (proj1 Hiff Hr).
Defined.

Lemma setup_success_witness :
  let run := async_setup "evohome_cc" "0.5.1" "0.5.1" SC.Gateway
               SC.render_domain SC.render None SC.hass_config in
  run.1 = Returned true
  ∧ ∃ period, AsyncTrackTimeInterval period ∈ run.2.
Proof.
  intros run.
  destruct (setup_success "evohome_cc" "0.5.1" "0.5.1" SC.Gateway
              SC.render_domain SC.render None SC.hass_config) as [Hiff _].
  assert (Hr : run.1 = Returned true) by reflexivity.
  split; [exact Hr | exact (proj1 Hiff Hr)].
Defined.

Lemma scenario_no_interval_called :
  GatewayCall (CfgStr "/dev/ttyUSB0") (delete "scan_interval" SC.kwargs)
  ∈ (async_setup "evohome_cc" "0.5.1" "0.5.1" SC.Gateway SC.render_domain SC.render
       None SC.no_interval).2.
Proof. vm_compute. do 3 apply list_elem_of_further. apply list_elem_of_here. Defined.

Lemma setup_missing_interval_witness :
  let run := async_setup "evohome_cc" "0.5.1" "0.5.1" SC.Gateway
               SC.render_domain SC.render None SC.no_interval in
  let dc := delete "scan_interval" SC.domain_config in
  SC.no_interval !! "evohome_cc" = Some dc
  ∧ dc !! CONF_SCAN_INTERVAL = None
  ∧ GatewayCall (CfgStr "/dev/ttyUSB0") (delete "scan_interval" SC.kwargs) ∈ run.2
  ∧ run.1 = Failed (KeyError CONF_SCAN_INTERVAL)
  ∧ List.filter sets_up run.2
    = [HassDataBroker
         (set_hass_config (EvoBroker__init__ {| evo := None |} (SC.render_domain dc))
            (SC.render SC.no_interval));
       LoopCreateTask {| evo := None |}].
Proof.
  intros run dc.
  assert (Hd : SC.no_interval !! "evohome_cc" = Some dc) by reflexivity.
  assert (Hp : dc !! CONF_SCAN_INTERVAL = None) by reflexivity.
  split; [exact Hd|]. split; [exact Hp|]. split; [exact scenario_no_interval_called|].
  exact (setup_missing_interval "evohome_cc" "0.5.1" "0.5.1" SC.Gateway
           SC.render_domain SC.render None SC.no_interval dc
           (CfgStr "/dev/ttyUSB0") (delete "scan_interval" SC.kwargs) {| evo := None |}
           Hd Hp scenario_no_interval_called eq_refl).
Defined.

Lemma setup_early_failures_witness :
  let run := async_setup "evohome_cc" "0.5.1" "0.5.1" SC.Gateway
               SC.render_domain SC.render None SC.no_port in
  SC.no_port !! "evohome_cc" = Some (delete "serial_port" SC.domain_config)
  ∧ delete "serial_port" SC.domain_config !! "serial_port" = None
  ∧ run.1 = Failed (KeyError "serial_port")
  ∧ List.filter sets_up run.2 = [].
Proof.
  intros run.
  destruct (setup_early_failures "evohome_cc" "0.5.1" "0.5.1" SC.Gateway
              SC.render_domain SC.render None SC.no_port) as (_ & Hport & _).
  assert (Hd : SC.no_port !! "evohome_cc" = Some (delete "serial_port" SC.domain_config))
    by reflexivity.
  assert (Hs : delete "serial_port" SC.domain_config !! "serial_port" = None)
    by reflexivity.
  destruct (Hport _ Hd Hs) as (Hr & Hnone & _).
  split; [exact Hd|]. split; [exact Hs|]. split; [exact Hr | exact Hnone].
Defined.
